(** * SQL Server agent test harness: helpers and their properties

    A shallow embedding of the helper classes under [automated_tests/helper]
    (agent, integration, load-test and soak-test helpers) together with the
    constants, exceptions and utilities they use.

    Remote hosts, the secret store, resource files, the JSON decoder and the
    clock are external collaborators of the helpers: they are gathered in an
    environment record [Env], and every theorem quantifies over it.  The
    helpers run in a reader/state/error monad whose state is the chronological
    trace of remote commands and sleeps plus the mutable attributes of the
    load-test helper object. *)

From Stdlib Require Import String Ascii List ZArith Lia Bool Arith DecimalString.
Import ListNotations.
Open Scope string_scope.

Set Implicit Arguments.

(** ** Python string operations used by the helpers *)

Module Py.

(** [if s:] on a [str]. *)
Definition truthy (s : string) : bool :=
  match s with
  | EmptyString => false
  | String _ _ => true
  end.

(** [s.startswith(p)]. *)
Definition startswith (p s : string) : bool := String.prefix p s.

(** Characters removed by [str.strip()] (ASCII range). *)
Definition is_space (c : ascii) : bool :=
  let n := nat_of_ascii c in
  ((9 <=? n)%nat && (n <=? 13)%nat) || ((28 <=? n)%nat && (n <=? 32)%nat).

Fixpoint lstrip (s : string) : string :=
  match s with
  | EmptyString => EmptyString
  | String c s' => if is_space c then lstrip s' else s
  end.

(** Right strip: a character is kept when something non-blank follows it. *)
Fixpoint rstrip (s : string) : string :=
  match s with
  | EmptyString => EmptyString
  | String c s' =>
      match rstrip s' with
      | EmptyString => if is_space c then EmptyString else String c EmptyString
      | r => String c r
      end
  end.

(** [s.strip()]. *)
Definition strip (s : string) : string := rstrip (lstrip s).

(** [s.split(sep)] for a one-character separator: the result is never
    empty, and consecutive separators delimit empty fields. *)
Fixpoint split (sep : ascii) (s : string) : list string :=
  match s with
  | EmptyString => [EmptyString]
  | String c s' =>
      if Ascii.eqb c sep then EmptyString :: split sep s'
      else match split sep s' with
           | [] => [String c EmptyString]
           | f :: fs => String c f :: fs
           end
  end.

(** [s.replace(old, new)]: left to right, non-overlapping.  [skip] counts the
    characters of a matched occurrence of [old] still to be dropped. *)
Fixpoint replace_from (old new : string) (skip : nat) (s : string) : string :=
  match s with
  | EmptyString => EmptyString
  | String c s' =>
      match skip with
      | S k => replace_from old new k s'
      | O =>
          if String.prefix old s
          then new ++ replace_from old new (String.length old - 1) s'
          else String c (replace_from old new 0 s')
      end
  end.

(** With an empty [old], Python inserts [new] before every character and at
    the end. *)
Fixpoint intersperse (new s : string) : string :=
  match s with
  | EmptyString => new
  | String c s' => new ++ String c (intersperse new s')
  end.

Definition replace (old new s : string) : string :=
  match old with
  | EmptyString => intersperse new s
  | _ => replace_from old new 0 s
  end.

(** [sub in s]. *)
Fixpoint contains (sub s : string) : bool :=
  String.prefix sub s ||
  match s with
  | EmptyString => false
  | String _ s' => contains sub s'
  end.

(** [xs[-1]] of a list of strings ([None] stands for [IndexError]). *)
Definition last_item (xs : list string) : option string :=
  match rev xs with
  | [] => None
  | x :: _ => Some x
  end.

Definition is_digit (c : ascii) : bool :=
  let n := nat_of_ascii c in (48 <=? n)%nat && (n <=? 57)%nat.

Definition digit_value (c : ascii) : Z := Z.of_nat (nat_of_ascii c - 48).

(** Digits of an integer literal: decimal digits, where single underscores
    may separate digits.  [prev_digit] tells whether the previous character
    was a digit, [acc] is the value read so far. *)
Fixpoint digits (prev_digit : bool) (acc : Z) (s : string) : option Z :=
  match s with
  | EmptyString => if prev_digit then Some acc else None
  | String c s' =>
      if is_digit c then digits true (10 * acc + digit_value c) s'
      else if Ascii.eqb c "_" then
             if prev_digit then digits false acc s' else None
           else None
  end.

(** [int(s)] on a [str]: surrounding blanks are dropped, an optional sign
    precedes the digits; [None] stands for [ValueError]. *)
Definition int (s : string) : option Z :=
  match strip s with
  | String "-" d => option_map Z.opp (digits false 0 d)
  | String "+" d => digits false 0 d
  | d => digits false 0 d
  end.

(** [round(x)] for the exact quotient [num / den] with [den > 0]: nearest
    integer, a tie goes to the even neighbour. *)
Definition round_div (num den : Z) : Z :=
  let q := (num / den)%Z in
  let r := (num mod den)%Z in
  match (2 * r ?= den)%Z with
  | Lt => q
  | Gt => (q + 1)%Z
  | Eq => if Z.even q then q else (q + 1)%Z
  end.

(** [str(z)] of an [int], as an f-string renders it. *)
Definition str_int (z : Z) : string := NilZero.string_of_int (Z.to_int z).

(** [''.join(parts)]. *)
Fixpoint concat_all (parts : list string) : string :=
  match parts with
  | [] => EmptyString
  | x :: rest => x ++ concat_all rest
  end.

(** The characters that cannot be written inside a string literal here. *)
Definition dq : string := String "034" EmptyString.
Definition nl : string := String "010" EmptyString.
Definition bs : string := String "092" EmptyString.

End Py.


(** ** Exceptions ([base/exceptions.py]) and the builtin ones that can escape *)

Inductive exn_kind : Type :=
  | UnsupportedOsForError
  | UnsupportedRepoError
  | SshCommandError
  | PackageInstallError
  | RunCommandError
  | AgentExecutionError
  | EvaluationExecutionError
  | InvalidArgumentError
  | HammerDbSetupError
  | RunSQLScriptError
  | RunLoadTestError
  | ValueError          (* builtin: [int] of a bad literal, [round] of NaN *)
  | KeyError            (* builtin: missing dictionary key *)
  | IndexError          (* builtin *)
  | FileNotFoundError   (* builtin: missing resource file *)
  | FrameworkError.     (* raised by the VM test framework itself *)

(** An exception object: its class and the arguments it was built with. *)
Record exn : Type := Exn { kind : exn_kind; args : list string }.

(** The classes declared by [base/exceptions.py]. *)
Definition typed (k : exn_kind) : bool :=
  match k with
  | ValueError | KeyError | IndexError | FileNotFoundError | FrameworkError => false
  | _ => true
  end.

Inductive result (A : Type) : Type :=
  | Ok (a : A)
  | Raise (e : exn).
Arguments Ok {A} a.
Arguments Raise {A} e.

(** ** Remote hosts and the environment *)

(** A virtual machine of the test framework, identified by its name. *)
Definition vm : Type := string.

(** The two ways a command reaches a host. *)
Inductive channel : Type :=
  | PowerShell   (* [windows_test_utils.RunCommandOrRaiseOnFailure] *)
  | Shell.       (* [vm.RunShellCommand] *)

(** What a remote call does: it returns [(status, stdout, stderr)] or the
    framework raises. *)
Inductive outcome : Type :=
  | Returned (status : Z) (out err : string)
  | Failed (e : exn).

Inductive event : Type :=
  | Ran (ch : channel) (v : vm) (cmd : string) (o : outcome)
  | Slept (seconds : Z).

Definition is_call (e : event) : bool :=
  match e with
  | Ran _ _ _ _ => true
  | Slept _ => false
  end.

(** Number of remote calls recorded in a trace. *)
Definition calls (tr : list event) : nat := List.length (filter is_call tr).

(** Everything the helpers obtain from outside the repository.  [remote n]
    answers the remote call made after [n] earlier ones. *)
Record Env : Type := {
  remote : nat -> channel -> vm -> string -> outcome;
  resource_file : string -> result string;     (* [open(GetResourceFilename(f)).read()] *)
  secret_value : string -> string -> string;   (* Secret Manager payload *)
  private_ip : vm -> string;                   (* [vm.GetPrivateIp()] *)
  current_user : string;                       (* [getpass.getuser()] *)
  now : string;                                (* [datetime.now().strftime(...)] *)
  uuid4 : string;                              (* [str(uuid.uuid4())] *)
  json_state : string -> result string;        (* [json.loads(s)['state']] *)
  json_first_evaluation_name : string -> result string;
                                 (* [json.loads(s)['evaluations'][0]['name']] *)
  float_str : Z -> Z -> string                 (* [str(a / b)] for ints, [b != 0] *)
}.

(** The instance attributes of [LoadtestHelper] that its methods assign. *)
Record Means : Type := {
  mean_trans_per_sec : Z;
  mean_lock_reqs_per_sec : Z;
  mean_lock_timeouts_per_sec : Z;
  mean_lock_waits_per_sec : Z;
  mean_deadlocks_per_sec : Z;
  mean_wait_time : Z;
  mean_latch_wait_time : Z;
  mean_trans_per_sec_agent_installed : Z;
  mean_lock_reqs_per_sec_agent_installed : Z;
  mean_lock_timeouts_per_sec_agent_installed : Z;
  mean_lock_waits_per_sec_agent_installed : Z;
  mean_deadlocks_per_sec_agent_installed : Z;
  mean_wait_time_agent_installed : Z;
  mean_latch_wait_time_agent_installed : Z
}.

Record World : Type := {
  trace : list event;   (* oldest first *)
  attrs : Means
}.

(** ** The monad the helpers run in *)

Definition M (A : Type) : Type := Env -> World -> result A * World.

Definition ret {A} (a : A) : M A := fun _ w => (Ok a, w).

Definition raise {A} (e : exn) : M A := fun _ w => (Raise e, w).

Definition bind {A B} (m : M A) (k : A -> M B) : M B :=
  fun env w =>
    match m env w with
    | (Ok a, w') => k a env w'
    | (Raise e, w') => (Raise e, w')
    end.

Definition ask : M Env := fun env w => (Ok env, w).

Definition lift {A} (r : result A) : M A := fun _ w => (r, w).

Definition get_attrs : M Means := fun _ w => (Ok (attrs w), w).

Definition set_attrs (a : Means) : M unit :=
  fun _ w => (Ok tt, {| trace := trace w; attrs := a |}).

(** The world after one more event. *)
Definition record_event (e : event) (w : World) : World :=
  {| trace := trace w ++ [e]; attrs := attrs w |}.

Definition emit (e : event) : M unit :=
  fun _ w => (Ok tt, record_event e w).

Declare Scope py_scope.
Delimit Scope py_scope with py.
Notation "x <- m ;; k" := (bind m (fun x => k))
  (at level 61, m at next level, right associativity) : py_scope.
Notation "' pat <- m ;; k" := (bind m (fun x => match x with pat => k end))
  (at level 61, pat pattern, m at next level, right associativity) : py_scope.
Notation "m ;; k" := (bind m (fun _ => k))
  (at level 61, right associativity) : py_scope.
Open Scope py_scope.

(** One remote call: the environment answers, the call and its answer are
    appended to the trace. *)
Definition remote_call (ch : channel) (v : vm) (cmd : string)
  : M (Z * string * string) :=
  fun env w =>
    let o := remote env (calls (trace w)) ch v cmd in
    let w' := record_event (Ran ch v cmd o) w in
    match o with
    | Returned st out err => (Ok (st, out, err), w')
    | Failed e => (Raise e, w')
    end.

(** [time.sleep(seconds)]. *)
Definition sleep (seconds : Z) : M unit := emit (Slept seconds).

(** ** Constants ([parameters/sqlserveragent_test_constants.py]) *)

Module sqlserveragent_test_constants.

Definition VM_ID_WIN_LOCAL : Z := 0.
Definition VM_ID_WIN_REMOTE : Z := 1.
Definition VM_ID_RHEL : Z := 2.
Definition VM_ID_SUSE : Z := 3.
Definition SQL_SERVER_AGENT_NAME : string := "google-cloud-sql-server-agent".
Definition SQL_SERVER_AGENT_EXE_PATH : string :=
  "'C:\Program"
  ++ " Files\Google\google-cloud-sql-server-agent\google-cloud-sql-server-agent.exe'".
Definition SQL_SERVER_AGENT_CONFIG_PATH_WINDOWS : string :=
  "'C:\Program"
  ++ " Files\Google\google-cloud-sql-server-agent\configuration.json'".
Definition SQL_SERVER_AGENT_CONFIG_PATH_LINUX : string :=
  "/etc/google-cloud-sql-server-agent/configuration.json".
Definition SQL_SERVER_AGENT_LOG_PATH_WINDOWS : string :=
  "C:\ProgramData\Google\google-cloud-sql-server-agent\logs\google-cloud-sql-server-agent.log".
Definition SQL_SERVER_AGENT_LOG_PATH_LINUX : string :=
  "/var/log/google-cloud-sql-server-agent.log".
Definition AGENT_FOR_SQL_SERVER_AGENT_DIR : string :=
  "google3/third_party/sqlserveragent/automated_tests/".

End sqlserveragent_test_constants.

(** ** The framework's command runners and [utils/bct_test_utils.py] *)

Module windows_test_utils.

Definition RunCommandOrRaiseOnFailure (v : vm) (cmd : string)
  : M (Z * string * string) := remote_call PowerShell v cmd.

End windows_test_utils.

Definition RunShellCommand (v : vm) (cmd : string) : M (Z * string * string) :=
  remote_call Shell v cmd.

Module bct_test_utils.

Definition GetCurrentUser : M string :=
  env <- ask ;; ret (current_user env).

Definition GetSecretValue (project_id secret_id : string) : M string :=
  env <- ask ;; ret (secret_value env project_id secret_id).

Definition ReadFileContent (filename : string) : M string :=
  env <- ask ;; lift (resource_file env filename).

Definition RunCommandOnVm (v : vm) (cmd : string) (linux : bool)
  : M (Z * string * string) :=
  if negb linux then windows_test_utils.RunCommandOrRaiseOnFailure v cmd
  else RunShellCommand v cmd.

End bct_test_utils.

(** ** The agent helper ([helper/agent_helper.py]) *)

Import sqlserveragent_test_constants.

(** The structured error marker [VerifyAgentRunning] looks for at the start
    of a log line. *)
Definition error_marker : string :=
  "{" ++ Py.dq ++ "level" ++ Py.dq ++ ":" ++ Py.dq ++ "error" ++ Py.dq.

(** Body of the log-scanning loop, on the pair [(has_err, err_msg)]. *)
Definition scan_line (st : bool * string) (line : string) : bool * string :=
  let '(has_err, err_msg) := st in
  if Py.startswith error_marker line
  then (true, err_msg ++ Py.strip line ++ Py.nl)
  else (has_err, err_msg).

(** [for line in out.split('\n'): ...] from [has_err = False; err_msg = ''];
    the loop is the same in both helpers. *)
Definition scan_log (out : string) : bool * string :=
  fold_left scan_line (Py.split "010" out) (false, EmptyString).

(** The PowerShell text sent by [_ListEvaluations] (the f-string with
    [{endpoint}] filled in). *)
Definition list_evaluations_cmd (endpoint : string) : string :=
  Py.nl
  ++ "    $cred = gcloud auth application-default print-access-token" ++ Py.nl
  ++ "    $headers = @{ " ++ Py.dq ++ "Authorization" ++ Py.dq ++ " = "
  ++ Py.dq ++ "Bearer $cred" ++ Py.dq ++ " }" ++ Py.nl
  ++ Py.nl
  ++ "    try {" ++ Py.nl
  ++ "      $Response =  Invoke-WebRequest -Method GET -Headers $headers -Uri "
  ++ Py.dq ++ "https://" ++ endpoint
  ++ "/v1/projects/wlm-for-sqlserver-integration/locations/us-central1/evaluations"
  ++ Py.dq ++ " -UseBasicParsing | Select-Object -Expand Content" ++ Py.nl
  ++ "      # This will only execute if the Invoke-WebRequest is successful."
  ++ Py.nl
  ++ "      $StatusCode = $Response.StatusCode" ++ Py.nl
  ++ "      $Response" ++ Py.nl
  ++ "    }" ++ Py.nl
  ++ "    catch {" ++ Py.nl
  ++ "      echo '### Inside catch ###'" ++ Py.nl
  ++ "      $ErrorMessage = $_.Exception.Message" ++ Py.nl
  ++ "      echo '## ErrorMessage ##' $ErrorMessage" ++ Py.nl
  ++ "      $FailedItem = $_.Exception.ItemName" ++ Py.nl
  ++ "      echo '## FailedItem ##' $FailedItem" ++ Py.nl
  ++ "      $result = $_.Exception.Response.GetResponseStream()" ++ Py.nl
  ++ "      echo '## result2 ##' $result" ++ Py.nl
  ++ "      $reader = New-Object System.IO.StreamReader($result)" ++ Py.nl
  ++ "      echo '## reader ##' $reader" ++ Py.nl
  ++ "      $responseBody = $reader.ReadToEnd();" ++ Py.nl
  ++ "      echo '## responseBody ##' $responseBody" ++ Py.nl
  ++ "    }" ++ Py.nl
  ++ "    ".

Definition run_evaluation_cmd (endpoint evaluation_id execution_id : string)
  : string :=
  "Invoke-WebRequest -Method POST -Headers $headers -Uri"
  ++ " " ++ Py.dq ++ "https://" ++ endpoint
  ++ "/v1/projects/wlm-for-sqlserver-integration/locations/us-central1/evaluations/"
  ++ evaluation_id ++ "/executions:run?execution_id=" ++ execution_id ++ Py.dq
  ++ " -UseBasicParsing | Select-Object -Expand Content".

Definition get_execution_cmd (endpoint evaluation_id execution_id : string)
  : string :=
  "Invoke-WebRequest -Method GET -Headers $headers -Uri"
  ++ " " ++ Py.dq ++ "https://" ++ endpoint
  ++ "/v1/projects/wlm-for-sqlserver-integration/locations/us-central1/evaluations/"
  ++ evaluation_id ++ "/executions/" ++ execution_id ++ Py.dq
  ++ " -UseBasicParsing | Select-Object -Expand Content".

(** [for i in range(0, 10): ...] of [_GetExecutionStatus], the same in both
    helpers; [n] iterations remain and [out] is the text of the latest
    answer. *)
Fixpoint poll (v : vm) (cmd : string) (n : nat) (out : string) : M string :=
  match n with
  | O => ret "FAILED"
  | S n' =>
      env <- ask ;;
      execution_state <- lift (json_state env out) ;;
      if String.eqb execution_state "RUNNING" then
        sleep 60 ;;
        '(_, out', err) <- bct_test_utils.RunCommandOnVm v cmd false ;;
        if Py.truthy err
        then raise (Exn EvaluationExecutionError
                      ["Failed to get execution status: " ++ err])
        else poll v cmd n' out'
      else ret execution_state
  end.

Module AgentHelper.

Record t : Type := {
  _vm : vm;
  _windows : bool;
  _repo_version : string;
  _gce_bucket : string;
  _g3_file_path : string
}.

Definition __init__ (virtual_machine : vm) (windows : bool)
    (repo_version : string) : M t :=
  user <- bct_test_utils.GetCurrentUser ;;
  let gce_bucket := "sql-server-agent-integration" in
  ret {| _vm := virtual_machine;
         _windows := windows;
         _repo_version := repo_version;
         _gce_bucket := gce_bucket;
         _g3_file_path :=
           "gs://" ++ gce_bucket ++ "/" ++ user
           ++ "/google-cloud-sql-server-agent.exe" |}.

(** The [repos] dictionary of [AddRepo]. *)
Definition repos (version : string) : result string :=
  if String.eqb version "unstable" then
    Ok "https://us-central1-googet.pkg.dev/projects/sql-server-solutions/repos/google-cloud-sql-server-agent-windows-x86-64-unstable"
  else if String.eqb version "stable" then
    Ok "https://packages.cloud.google.com/yuck/repos/google-cloud-sql-server-agent-windows"
  else Raise (Exn KeyError [version]).

(** The google3 copy returns early without looking at stderr; every other
    path falls through to the checked call at the end. *)
Definition AddRepo (self : t) : M unit :=
  if _windows self && String.eqb (_repo_version self) "google3" then
    let cmd := "gsutil cp " ++ _g3_file_path self
               ++ " " ++ SQL_SERVER_AGENT_EXE_PATH in
    '(_, out, err) <- bct_test_utils.RunCommandOnVm (_vm self) cmd false ;;
    ret tt
  else
    cmd <- (if _windows self then
              repo <- lift (repos (_repo_version self)) ;;
              ret ("googet addrepo"
                   ++ " " ++ SQL_SERVER_AGENT_NAME ++ " " ++ repo)
            else ret EmptyString) ;;
    '(_, _, err) <- bct_test_utils.RunCommandOnVm (_vm self) cmd false ;;
    if Py.truthy err
    then raise (Exn RunCommandError ["Failed to add repo: " ++ err])
    else ret tt.

Definition UpdateConfiguration (self : t) (configuration : string) : M unit :=
  config_json <- bct_test_utils.ReadFileContent
                   (AGENT_FOR_SQL_SERVER_AGENT_DIR
                    ++ "configurations/" ++ configuration) ;;
  let cmd :=
    if _windows self then
      "Set-Content -Path"
      ++ " " ++ SQL_SERVER_AGENT_CONFIG_PATH_WINDOWS ++ " -Value"
      ++ " @" ++ Py.dq ++ Py.nl ++ config_json ++ Py.nl ++ Py.dq
      ++ "@ -Encoding ascii"
    else EmptyString in
  '(_, _, err) <- bct_test_utils.RunCommandOnVm (_vm self) cmd false ;;
  if Py.truthy err
  then raise (Exn RunCommandError ["Failed to update configuration: " ++ err])
  else ret tt.

Definition _VerifyAgentInstallation (self : t) : M unit :=
  let cmd :=
    if _windows self then "Get-Service -Name" ++ " " ++ SQL_SERVER_AGENT_NAME
    else EmptyString in
  '(_, _, err) <- bct_test_utils.RunCommandOnVm (_vm self) cmd false ;;
  if Py.truthy err
  then raise (Exn RunCommandError
                ["Failed to verify agent installation: " ++ err])
  else ret tt.

(** The command is chosen first; on the google3 path the configuration is
    written while choosing it. *)
Definition InstallAgent (self : t) : M unit :=
  cmd <- (if _windows self then
            if String.eqb (_repo_version self) "google3" then
              UpdateConfiguration self "local.json" ;;
              ret ("& " ++ SQL_SERVER_AGENT_EXE_PATH ++ " --action=install")
            else
              ret ("googet -noconfirm install" ++ " " ++ SQL_SERVER_AGENT_NAME)
          else ret EmptyString) ;;
  '(_, _, err) <- bct_test_utils.RunCommandOnVm (_vm self) cmd false ;;
  if Py.truthy err
  then raise (Exn RunCommandError ["Failed to install agent: " ++ err])
  else _VerifyAgentInstallation self.

Definition ReadConfiguration (self : t) : M string :=
  let cmd :=
    if _windows self then
      "Get-Content -Path " ++ SQL_SERVER_AGENT_CONFIG_PATH_WINDOWS
    else EmptyString in
  '(_, out, err) <- bct_test_utils.RunCommandOnVm (_vm self) cmd false ;;
  if Py.truthy err
  then raise (Exn RunCommandError ["Failed to read configuration: " ++ err])
  else ret out.

Definition service_status_cmd (self : t) : string :=
  if _windows self then
    "$(Get-Service -Name" ++ " " ++ SQL_SERVER_AGENT_NAME ++ ").Status"
  else EmptyString.

Definition stop_service_cmd (self : t) : string :=
  if _windows self then "Stop-Service -Name" ++ " " ++ SQL_SERVER_AGENT_NAME
  else EmptyString.

Definition delete_log_cmd (self : t) : string :=
  if _windows self then
    "Remove-Item -Path" ++ " " ++ SQL_SERVER_AGENT_LOG_PATH_WINDOWS
  else EmptyString.

Definition start_service_cmd (self : t) : string :=
  if _windows self then "Start-Service -Name" ++ " " ++ SQL_SERVER_AGENT_NAME
  else EmptyString.

Definition read_log_cmd (self : t) : string :=
  if _windows self then
    "Get-Content -Path" ++ " " ++ SQL_SERVER_AGENT_LOG_PATH_WINDOWS
  else EmptyString.

(** [status.split('\n')[0].strip()]. *)
Definition first_line_stripped (status : string) : string :=
  Py.strip (hd EmptyString (Py.split "010" status)).

Definition _ServiceStatus (self : t) : M string :=
  let cmd := service_status_cmd self in
  '(_, status, err) <- bct_test_utils.RunCommandOnVm (_vm self) cmd false ;;
  if Py.truthy err
  then raise (Exn RunCommandError ["Failed to get service status: " ++ err])
  else ret (first_line_stripped status).

Definition _StopService (self : t) : M unit :=
  let cmd := stop_service_cmd self in
  '(_, _, err) <- bct_test_utils.RunCommandOnVm (_vm self) cmd false ;;
  if Py.truthy err
  then raise (Exn AgentExecutionError ["Failed to stop service: " ++ err])
  else ret tt.

Definition _DeleteLogFile (self : t) : M unit :=
  let cmd := delete_log_cmd self in
  '(_, _, err) <- bct_test_utils.RunCommandOnVm (_vm self) cmd false ;;
  if Py.truthy err
  then raise (Exn RunCommandError ["Failed to delete log: " ++ err])
  else ret tt.

Definition StartService (self : t) : M unit :=
  status <- _ServiceStatus self ;;
  (if String.eqb status "Running"
   then _StopService self ;; _DeleteLogFile self
   else ret tt) ;;
  let cmd := start_service_cmd self in
  '(_, _, err) <- bct_test_utils.RunCommandOnVm (_vm self) cmd false ;;
  if Py.truthy err
  then raise (Exn AgentExecutionError ["Failed to start service: " ++ err])
  else ret tt.

Definition VerifyAgentRunning (self : t) : M unit :=
  let expected_status := if _windows self then "Running" else EmptyString in
  status <- _ServiceStatus self ;;
  if negb (String.eqb status expected_status)
  then raise (Exn AgentExecutionError
                ["Unexpected service status: " ++ status ++ "."])
  else
    let cmd := read_log_cmd self in
    '(_, out, err) <- bct_test_utils.RunCommandOnVm (_vm self) cmd false ;;
    if Py.truthy err
    then raise (Exn RunCommandError ["Failed to read log: " ++ err])
    else
      let '(has_err, err_msg) := scan_log out in
      if has_err
      then raise (Exn AgentExecutionError
                    ["Unexpected error happens during the run. " ++ Py.nl
                     ++ err_msg])
      else ret tt.

Definition _ListEvaluations (self : t) (endpoint : string) : M string :=
  let cmd := list_evaluations_cmd endpoint in
  '(_, out, err) <- bct_test_utils.RunCommandOnVm (_vm self) cmd false ;;
  if Py.truthy err
  then raise (Exn EvaluationExecutionError
                ["Failed to list evaluations: " ++ err])
  else
    env <- ask ;;
    evaluation_name <- lift (json_first_evaluation_name env out) ;;
    match Py.last_item (Py.split "/" evaluation_name) with
    | Some evaluation_id => ret evaluation_id
    | None => raise (Exn IndexError [])
    end.

Definition _RunEvaluation (self : t)
    (evaluation_id execution_id endpoint : string) : M unit :=
  let cmd :=
    if _windows self
    then run_evaluation_cmd endpoint evaluation_id execution_id
    else EmptyString in
  '(_, out, err) <- bct_test_utils.RunCommandOnVm (_vm self) cmd false ;;
  if Py.truthy err
  then raise (Exn EvaluationExecutionError
                ["Failed to run evaluation: " ++ err])
  else ret tt.

Definition _GetExecutionStatus (self : t)
    (evaluation_id execution_id endpoint : string) : M string :=
  let cmd :=
    if _windows self
    then get_execution_cmd endpoint evaluation_id execution_id
    else EmptyString in
  '(_, out, err) <- bct_test_utils.RunCommandOnVm (_vm self) cmd false ;;
  if Py.truthy err
  then raise (Exn EvaluationExecutionError
                ["Failed to get execution status: " ++ err])
  else poll (_vm self) cmd 10 out.

Definition VerifyEvaluationRun (self : t) : M unit :=
  let endpoint :=
    if String.eqb (_repo_version self) "google3"
    then "autopush-workloadmanager.sandbox.googleapis.com"
    else "workloadmanager.googleapis.com" in
  evaluation_id <- _ListEvaluations self endpoint ;;
  env <- ask ;;
  let execution_id := uuid4 env in
  _RunEvaluation self evaluation_id execution_id endpoint ;;
  execution_status <- _GetExecutionStatus self evaluation_id execution_id
                        endpoint ;;
  if String.eqb execution_status "FAILED"
  then raise (Exn EvaluationExecutionError
                ["Execution=" ++ execution_id ++ " of Evaluation="
                 ++ evaluation_id ++ " failed."])
  else ret tt.

End AgentHelper.

(** ** The integration helper ([helper/integrationtest_helper.py]) *)

Module IntegrationHelper.

Record t : Type := {
  _repo_version : string;
  _vm_win_local : vm;
  _vm_win_remote : vm;
  _vm_rhel : vm;
  _vm_suse : vm;
  _gce_bucket : string;
  _g3_file_path_win : string;
  _g3_file_path_linux : string
}.

Definition __init__ (repo_version : string)
    (vm_win_local vm_win_remote vm_rhel vm_suse : vm) : M t :=
  user <- bct_test_utils.GetCurrentUser ;;
  let gce_bucket := "sql-server-agent-integration" in
  ret {| _repo_version := repo_version;
         _vm_win_local := vm_win_local;
         _vm_win_remote := vm_win_remote;
         _vm_rhel := vm_rhel;
         _vm_suse := vm_suse;
         _gce_bucket := gce_bucket;
         _g3_file_path_win :=
           "gs://" ++ gce_bucket ++ "/" ++ user
           ++ "/google-cloud-sql-server-agent.exe";
         _g3_file_path_linux :=
           "gs://" ++ gce_bucket ++ "/" ++ user
           ++ "/google-cloud-sql-server-agent" |}.

Definition is_windows_id (target_vm_id : Z) : bool :=
  (target_vm_id =? VM_ID_WIN_LOCAL)%Z || (target_vm_id =? VM_ID_WIN_REMOTE)%Z.

(** Only for remote collection the command runs on [vm_win_remote]. *)
Definition vm_agent (self : t) (target_vm_id : Z) : vm :=
  if (target_vm_id =? VM_ID_WIN_REMOTE)%Z then _vm_win_remote self
  else _vm_win_local self.

Definition ssh_prefix (vm_ip : string) : string :=
  "ssh -o StrictHostKeyChecking=no -i C:\Users\local-user\.ssh\id_rsa local-user@"
  ++ vm_ip ++ " @" ++ Py.dq ++ Py.nl.

(** The command [SetUpAgent] builds, before it is sent. *)
Definition setup_cmd (self : t) (target_vm_id : Z) (config : string)
  : M string :=
  if is_windows_id target_vm_id then
    let script_path := "C:\temp\setup_agent_win.ps1" in
    script <- bct_test_utils.ReadFileContent
                (AGENT_FOR_SQL_SERVER_AGENT_DIR
                 ++ "scripts/agent-setup-win.ps1") ;;
    let script := Py.replace "$" "`$" script in
    let script := Py.replace "@" "`@" script in
    ret ("New-Item -Path " ++ script_path
         ++ " -Type file -Force;Set-Content -Path"
         ++ " " ++ script_path ++ " -Value @" ++ Py.dq ++ Py.nl ++ script
         ++ Py.nl ++ Py.dq ++ "@ -Encoding"
         ++ " ascii;" ++ script_path ++ " @" ++ Py.dq ++ Py.nl ++ config
         ++ Py.nl ++ Py.dq ++ "@"
         ++ " " ++ _repo_version self ++ " " ++ _g3_file_path_win self)
  else
    env <- ask ;;
    let '(script_name, vm_ip) :=
      if (target_vm_id =? VM_ID_RHEL)%Z
      then ("agent-setup-rhel.sh", private_ip env (_vm_rhel self))
      else ("agent-setup-suse.sh", private_ip env (_vm_suse self)) in
    script <- bct_test_utils.ReadFileContent
                (AGENT_FOR_SQL_SERVER_AGENT_DIR ++ "scripts/" ++ script_name) ;;
    let script := Py.replace Py.dq (Py.bs ++ Py.dq) script in
    let script := Py.replace "$" "`$" script in
    let config := Py.replace Py.dq (Py.bs ++ Py.dq) config in
    ret (ssh_prefix vm_ip
         ++ "echo '" ++ script ++ "' > " ++ script_name ++ Py.nl
         ++ "chmod 775 " ++ script_name ++ Py.nl
         ++ "sudo ./" ++ script_name ++ " " ++ _repo_version self
         ++ " '" ++ config ++ "' " ++ _g3_file_path_linux self ++ Py.nl
         ++ Py.dq ++ "@" ++ Py.nl).

(** [_, _, _ = RunCommandOnVm(vm_agent, cmd)]: the answer is dropped. *)
Definition SetUpAgent (self : t) (target_vm_id : Z)
    (configuration_name : string) : M unit :=
  config <- bct_test_utils.ReadFileContent
              (AGENT_FOR_SQL_SERVER_AGENT_DIR
               ++ "configurations/" ++ configuration_name) ;;
  cmd <- setup_cmd self target_vm_id config ;;
  '(_, _, _) <- bct_test_utils.RunCommandOnVm
                  (vm_agent self target_vm_id) cmd false ;;
  ret tt.

Definition read_log_cmd (env : Env) (self : t) (target_vm_id : Z) : string :=
  if is_windows_id target_vm_id then
    "Get-Content -Path" ++ " " ++ SQL_SERVER_AGENT_LOG_PATH_WINDOWS
  else
    let vm_ip :=
      if (target_vm_id =? VM_ID_RHEL)%Z
      then private_ip env (_vm_rhel self)
      else private_ip env (_vm_suse self) in
    "ssh -o StrictHostKeyChecking=no -i"
    ++ " C:\Users\local-user\.ssh\id_rsa"
    ++ " local-user@" ++ vm_ip ++ " @" ++ Py.dq ++ Py.nl
    ++ "sudo cat "
    ++ " " ++ SQL_SERVER_AGENT_LOG_PATH_LINUX ++ Py.nl
    ++ Py.dq ++ "@".

Definition VerifyAgentRunning (self : t) (target_vm_id : Z) : M unit :=
  env <- ask ;;
  let cmd := read_log_cmd env self target_vm_id in
  '(_, out, err) <- bct_test_utils.RunCommandOnVm
                      (vm_agent self target_vm_id) cmd false ;;
  if Py.truthy err
  then raise (Exn RunCommandError ["Failed to read log: " ++ err])
  else
    let '(has_err, err_msg) := scan_log out in
    if has_err
    then raise (Exn AgentExecutionError
                  ["Unexpected error happens during the run. " ++ Py.nl
                   ++ err_msg])
    else ret tt.

Definition _ListEvaluations (self : t) (endpoint : string) : M string :=
  let cmd := list_evaluations_cmd endpoint in
  '(_, out, err) <- bct_test_utils.RunCommandOnVm (_vm_win_local self) cmd
                      false ;;
  if Py.truthy err
  then raise (Exn EvaluationExecutionError
                ["Failed to list evaluations: " ++ err])
  else
    env <- ask ;;
    evaluation_name <- lift (json_first_evaluation_name env out) ;;
    match Py.last_item (Py.split "/" evaluation_name) with
    | Some evaluation_id => ret evaluation_id
    | None => raise (Exn IndexError [])
    end.

Definition _RunEvaluation (self : t)
    (evaluation_id execution_id endpoint : string) : M unit :=
  let cmd := run_evaluation_cmd endpoint evaluation_id execution_id in
  '(_, out, err) <- bct_test_utils.RunCommandOnVm (_vm_win_local self) cmd
                      false ;;
  if Py.truthy err
  then raise (Exn EvaluationExecutionError
                ["Failed to run evaluation: " ++ err])
  else ret tt.

Definition _GetExecutionStatus (self : t)
    (evaluation_id execution_id endpoint : string) : M string :=
  let cmd := get_execution_cmd endpoint evaluation_id execution_id in
  '(_, out, err) <- bct_test_utils.RunCommandOnVm (_vm_win_local self) cmd
                      false ;;
  if Py.truthy err
  then raise (Exn EvaluationExecutionError
                ["Failed to get execution status: " ++ err])
  else poll (_vm_win_local self) cmd 10 out.

Definition VerifyEvaluationRun (self : t) : M unit :=
  let endpoint :=
    if String.eqb (_repo_version self) "google3"
    then "autopush-workloadmanager.sandbox.googleapis.com"
    else "workloadmanager.googleapis.com" in
  evaluation_id <- _ListEvaluations self endpoint ;;
  env <- ask ;;
  let execution_id := uuid4 env in
  _RunEvaluation self evaluation_id execution_id endpoint ;;
  execution_status <- _GetExecutionStatus self evaluation_id execution_id
                        endpoint ;;
  if String.eqb execution_status "FAILED"
  then raise (Exn EvaluationExecutionError
                ["Execution=" ++ execution_id ++ " of Evaluation="
                 ++ evaluation_id ++ " failed."])
  else ret tt.

End IntegrationHelper.

(** ** The soak-test helper ([helper/soaktest_helper.py]) *)

Module SoakTestHelper.

Definition PS1_FILENAME : string := "upload_log_file.ps1".
Definition SH_FILENAME : string := "upload_log_file.sh".

Record t : Type := {
  vm_win_local : vm;
  vm_win_remote : vm;
  vm_rhel : vm;
  vm_suse : vm
}.

Definition upload_cmd (self : t) (vm_id : Z) : M string :=
  if IntegrationHelper.is_windows_id vm_id then
    script_content <- bct_test_utils.ReadFileContent
                        (AGENT_FOR_SQL_SERVER_AGENT_DIR
                         ++ "scripts/" ++ PS1_FILENAME) ;;
    (* replace special character $ with `$ *)
    let script_content := Py.replace "$" "`$" script_content in
    let ps1_path := "C:\temp" ++ Py.bs ++ PS1_FILENAME in
    ret ("New-Item -Path " ++ ps1_path ++ " -Type file -Force;"
         ++ "Set-Content -Path " ++ ps1_path ++ " -Value"
         ++ " @" ++ Py.dq ++ Py.nl ++ script_content ++ Py.nl ++ Py.dq
         ++ "@ -Encoding ascii -Force;"
         ++ "Start-Job -FilePath " ++ ps1_path)
  else
    env <- ask ;;
    let vm_ip :=
      if (vm_id =? VM_ID_RHEL)%Z
      then private_ip env (vm_rhel self)
      else private_ip env (vm_suse self) in
    script_content <- bct_test_utils.ReadFileContent
                        (AGENT_FOR_SQL_SERVER_AGENT_DIR
                         ++ "scripts/" ++ SH_FILENAME) ;;
    let script_content := Py.replace "$" "`$" script_content in
    let script_content := Py.replace Py.dq (Py.bs ++ Py.dq) script_content in
    ret (IntegrationHelper.ssh_prefix vm_ip
         ++ "echo '" ++ script_content ++ "' > " ++ SH_FILENAME ++ Py.nl
         ++ "chmod 775 " ++ SH_FILENAME ++ Py.nl
         ++ "nohup ./" ++ SH_FILENAME ++ " > /dev/null 2>&1 &" ++ Py.nl
         ++ Py.dq ++ "@" ++ Py.nl).

Definition RunUploadLogFileScript (self : t) (vm_id : Z) : M unit :=
  cmd <- upload_cmd self vm_id ;;
  let vm_agent :=
    if (vm_id =? VM_ID_WIN_REMOTE)%Z then vm_win_remote self
    else vm_win_local self in
  '(_, _, err) <- bct_test_utils.RunCommandOnVm vm_agent cmd false ;;
  if Py.truthy err
  then raise (Exn RunCommandError
                ["error when running the command: " ++ cmd ++ Py.nl
                 ++ " on vm id " ++ Py.str_int vm_id ++ ". "; err])
  else ret tt.

End SoakTestHelper.

(** ** The load-test helper ([helper/loadtest_helper.py]) *)

(** The seven sample lists filled by [ProcessLoadTestResult]. *)
Record Samples : Type := {
  trans_per_sec : list Z;
  lock_reqs_per_sec : list Z;
  lock_timeouts_per_sec : list Z;
  lock_waits_per_sec : list Z;
  deadlocks_per_sec : list Z;
  avg_wait_time : list Z;
  avg_latch_wait_time : list Z
}.

Definition no_samples : Samples :=
  {| trans_per_sec := []; lock_reqs_per_sec := []; lock_timeouts_per_sec := [];
     lock_waits_per_sec := []; deadlocks_per_sec := []; avg_wait_time := [];
     avg_latch_wait_time := [] |}.

(** [int(cols[i])]. *)
Definition int_col (cols : list string) (i : nat) : result Z :=
  match Py.int (nth i cols EmptyString) with
  | Some z => Ok z
  | None => Raise (Exn ValueError [nth i cols EmptyString])
  end.

Definition rbind {A B} (r : result A) (k : A -> result B) : result B :=
  match r with
  | Ok a => k a
  | Raise e => Raise e
  end.

(** Body of the row loop: a row that does not have nine columns is skipped
    ([continue]); otherwise seven of its columns are appended. *)
Definition add_row (s : Samples) (row : string) : result Samples :=
  let cols := Py.split "," row in
  if negb (List.length cols =? 9)%nat then Ok s
  else
    rbind (int_col cols 0) (fun c0 =>
    rbind (int_col cols 3) (fun c3 =>
    rbind (int_col cols 4) (fun c4 =>
    rbind (int_col cols 5) (fun c5 =>
    rbind (int_col cols 6) (fun c6 =>
    rbind (int_col cols 7) (fun c7 =>
    rbind (int_col cols 8) (fun c8 =>
    Ok {| trans_per_sec := trans_per_sec s ++ [c0];
          lock_reqs_per_sec := lock_reqs_per_sec s ++ [c3];
          lock_timeouts_per_sec := lock_timeouts_per_sec s ++ [c4];
          lock_waits_per_sec := lock_waits_per_sec s ++ [c5];
          deadlocks_per_sec := deadlocks_per_sec s ++ [c6];
          avg_wait_time := avg_wait_time s ++ [c7];
          avg_latch_wait_time := avg_latch_wait_time s ++ [c8] |}))))))).

(** [for row in result: ...]. *)
Fixpoint collect (rows : list string) (s : Samples) : result Samples :=
  match rows with
  | [] => Ok s
  | row :: rest => rbind (add_row s row) (collect rest)
  end.

Definition sum (xs : list Z) : Z := fold_right Z.add 0%Z xs.

(** [round(np.mean(xs))].  The mean of an empty list is NaN, which [round]
    refuses with [ValueError]; otherwise the mean is taken as the exact
    quotient (the float computation agrees with it as long as the sum stays
    below 2^53). *)
Definition round_mean (xs : list Z) : result Z :=
  match xs with
  | [] => Raise (Exn ValueError ["cannot convert float NaN to integer"])
  | _ => Ok (Py.round_div (sum xs) (Z.of_nat (List.length xs)))
  end.

(** What an f-string shows for a report value: an [int], or the float
    obtained by the true division [num / den], kept as its two operands. *)
Inductive shown : Type :=
  | IntVal (z : Z)
  | TrueDiv (num den : Z).

(** One [result += f'label: {value}\n']. *)
Record line : Type := Line { label : string; value : shown }.

Definition render_line (env : Env) (l : line) : string :=
  label l ++ ": "
  ++ match value l with
     | IntVal z => Py.str_int z
     | TrueDiv num den => float_str env num den
     end
  ++ Py.nl.

Module LoadtestHelper.

Record t : Type := {
  _vm_sqlserver : vm;
  _vm_hammerdb : vm;
  _hammerdb_path : string;
  _project_number : string;
  _secret_name : string;
  _background_job_name : string;
  _test_result_path : string;
  _raw_data_file_name_prefix : string;
  _raw_data_bucket_path_prefix : string
}.

Definition zero_means : Means :=
  {| mean_trans_per_sec := 0;
     mean_lock_reqs_per_sec := 0;
     mean_lock_timeouts_per_sec := 0;
     mean_lock_waits_per_sec := 0;
     mean_deadlocks_per_sec := 0;
     mean_wait_time := 0;
     mean_latch_wait_time := 0;
     mean_trans_per_sec_agent_installed := 0;
     mean_lock_reqs_per_sec_agent_installed := 0;
     mean_lock_timeouts_per_sec_agent_installed := 0;
     mean_lock_waits_per_sec_agent_installed := 0;
     mean_deadlocks_per_sec_agent_installed := 0;
     mean_wait_time_agent_installed := 0;
     mean_latch_wait_time_agent_installed := 0 |}.

Definition __init__ (vm_sqlserver vm_hammerdb : vm)
    (hammerdb_version : string) : M t :=
  env <- ask ;;
  let current_time := now env in
  set_attrs zero_means ;;
  ret {| _vm_sqlserver := vm_sqlserver;
         _vm_hammerdb := vm_hammerdb;
         _hammerdb_path := "C:\Program Files\HammerDB-" ++ hammerdb_version;
         _project_number := "670032142250";
         _secret_name := "integration-test-pswd";
         _background_job_name := "run-load-test-background";
         _test_result_path := "C:\Windows\Temp\sqlPerf.log*";
         _raw_data_file_name_prefix := "loadtest-" ++ current_time;
         _raw_data_bucket_path_prefix :=
           "gs://sql-server-agent-integration/loadtest-rawdata/" |}.

Definition save_file_cmd (self : t) (filename file_content : string) : string :=
  "Set-Content -Path"
  ++ " '" ++ _hammerdb_path self ++ Py.bs ++ filename ++ "' -Value"
  ++ " @" ++ Py.dq ++ Py.nl ++ file_content ++ Py.nl ++ Py.dq
  ++ "@ -Encoding ascii".

Definition _SaveFileToHammerDBFolder (self : t)
    (filename file_content : string) : M unit :=
  let cmd := save_file_cmd self filename file_content in
  '(_, out, err) <- windows_test_utils.RunCommandOrRaiseOnFailure
                      (_vm_hammerdb self) cmd ;;
  if Py.truthy err
  then raise (Exn RunLoadTestError
                ["Error found while saving file " ++ filename ++ ": "; err])
  else ret tt.

Definition _RunTclScripts (self : t) (file_name file_content : string)
  : M unit :=
  _SaveFileToHammerDBFolder self file_name file_content ;;
  let cmd := "cd '" ++ _hammerdb_path self ++ "' ; .\hammerdbcli tcl auto"
             ++ " ." ++ Py.bs ++ file_name in
  '(_, out, err) <- windows_test_utils.RunCommandOrRaiseOnFailure
                      (_vm_hammerdb self) cmd ;;
  if Py.truthy err || Py.contains "error" out
  then raise (Exn HammerDbSetupError ["Error found while hammerdb setups"])
  else ret tt.

(** The template after both placeholders are filled in. *)
Definition fill_setups (file_content server pswd : string) : string :=
  let result := Py.replace "%SERVER%" server file_content in
  Py.replace "%PASSWORD%" pswd result.

Definition SetupHammerDB (self : t) : M unit :=
  let file_name := "setups.tcl" in
  file_content <- bct_test_utils.ReadFileContent
                    (AGENT_FOR_SQL_SERVER_AGENT_DIR
                     ++ "load_test/" ++ file_name) ;;
  env <- ask ;;
  pswd <- bct_test_utils.GetSecretValue (_project_number self)
            (_secret_name self) ;;
  let result :=
    fill_setups file_content (private_ip env (_vm_sqlserver self)) pswd in
  _RunTclScripts self file_name result.

Definition sql_cmd (self : t) (env : Env) (file_name pswd : string)
    (background : bool) : string :=
  let path := "'" ++ _hammerdb_path self ++ Py.bs ++ file_name ++ "'" in
  let cmd := "sqlcmd -U sa -P " ++ pswd ++ " -S "
             ++ private_ip env (_vm_sqlserver self) ++ " -i"
             ++ " " ++ path in
  if background
  then "Start-Job -ScriptBlock {" ++ cmd ++ "}" ++ " -Name "
       ++ _background_job_name self
  else cmd.

Definition RunSqlScripts (self : t) (file_name : string) (background : bool)
  : M unit :=
  file_content <- bct_test_utils.ReadFileContent
                    (AGENT_FOR_SQL_SERVER_AGENT_DIR
                     ++ "load_test/" ++ file_name) ;;
  _SaveFileToHammerDBFolder self file_name file_content ;;
  pswd <- bct_test_utils.GetSecretValue (_project_number self)
            (_secret_name self) ;;
  env <- ask ;;
  let cmd := sql_cmd self env file_name pswd background in
  '(_, out, err) <- windows_test_utils.RunCommandOrRaiseOnFailure
                      (_vm_hammerdb self) cmd ;;
  if Py.truthy err
  then raise (Exn RunSQLScriptError
                ["Error found while running sql script: "; err])
  else ret tt.

Definition StopBackgroundJob (self : t) : M unit :=
  let cmd := "Stop-Job -Name " ++ _background_job_name self in
  '(_, out, err) <- windows_test_utils.RunCommandOrRaiseOnFailure
                      (_vm_hammerdb self) cmd ;;
  if Py.truthy err
  then raise (Exn RunSQLScriptError
                ["Error found while stop background job: "; err])
  else ret tt.

Definition RunVirtualUsers (self : t) : M unit :=
  let file_name := "virtualusers.tcl" in
  file_content <- bct_test_utils.ReadFileContent
                    (AGENT_FOR_SQL_SERVER_AGENT_DIR
                     ++ "load_test/" ++ file_name) ;;
  _RunTclScripts self file_name file_content.

Definition get_result_cmd (self : t) : string :=
  "Get-Content -Path " ++ _test_result_path self ++ " -Encoding ascii".

Definition _GetLoadTestResult (self : t) : M string :=
  let cmd := get_result_cmd self in
  '(_, out, err) <- windows_test_utils.RunCommandOrRaiseOnFailure
                      (_vm_sqlserver self) cmd ;;
  if Py.truthy err
  then raise (Exn RunLoadTestError
                ["Error found while getting test result: "; err])
  else ret out.

(** [_, out, _ = RunCommandOrRaiseOnFailure(...)]: stderr is dropped. *)
Definition UploadLoadTestResultToBucket (self : t) (agent_installed : bool)
  : M unit :=
  let cmd :=
    if agent_installed then
      "gsutil cp"
      ++ " " ++ _test_result_path self ++ " "
      ++ _raw_data_bucket_path_prefix self ++ _raw_data_file_name_prefix self
      ++ "-agent_installed.txt"
    else
      "gsutil cp"
      ++ " " ++ _test_result_path self ++ " "
      ++ _raw_data_bucket_path_prefix self ++ _raw_data_file_name_prefix self
      ++ ".txt" in
  '(_, out, _) <- windows_test_utils.RunCommandOrRaiseOnFailure
                    (_vm_sqlserver self) cmd ;;
  ret tt.

Definition delete_result_cmd (self : t) : string :=
  "Remove-Item -Path " ++ _test_result_path self.

Definition _DeleteTestResult (self : t) : M unit :=
  let cmd := delete_result_cmd self in
  '(_, out, err) <- windows_test_utils.RunCommandOrRaiseOnFailure
                      (_vm_sqlserver self) cmd ;;
  if Py.truthy err
  then raise (Exn RunLoadTestError
                ["Error found while deleting test result: "; err])
  else ret tt.

(** The attribute assignments at the end of [ProcessLoadTestResult]. *)
Definition record_means (agent_installed : bool) (a : Means)
    (m0 m3 m4 m5 m6 m7 m8 : Z) : Means :=
  if agent_installed then
    {| mean_trans_per_sec := mean_trans_per_sec a;
       mean_lock_reqs_per_sec := mean_lock_reqs_per_sec a;
       mean_lock_timeouts_per_sec := mean_lock_timeouts_per_sec a;
       mean_lock_waits_per_sec := mean_lock_waits_per_sec a;
       mean_deadlocks_per_sec := mean_deadlocks_per_sec a;
       mean_wait_time := mean_wait_time a;
       mean_latch_wait_time := mean_latch_wait_time a;
       mean_trans_per_sec_agent_installed := m0;
       mean_lock_reqs_per_sec_agent_installed := m3;
       mean_lock_timeouts_per_sec_agent_installed := m4;
       mean_lock_waits_per_sec_agent_installed := m5;
       mean_deadlocks_per_sec_agent_installed := m6;
       mean_wait_time_agent_installed := m7;
       mean_latch_wait_time_agent_installed := m8 |}
  else
    {| mean_trans_per_sec := m0;
       mean_lock_reqs_per_sec := m3;
       mean_lock_timeouts_per_sec := m4;
       mean_lock_waits_per_sec := m5;
       mean_deadlocks_per_sec := m6;
       mean_wait_time := m7;
       mean_latch_wait_time := m8;
       mean_trans_per_sec_agent_installed :=
         mean_trans_per_sec_agent_installed a;
       mean_lock_reqs_per_sec_agent_installed :=
         mean_lock_reqs_per_sec_agent_installed a;
       mean_lock_timeouts_per_sec_agent_installed :=
         mean_lock_timeouts_per_sec_agent_installed a;
       mean_lock_waits_per_sec_agent_installed :=
         mean_lock_waits_per_sec_agent_installed a;
       mean_deadlocks_per_sec_agent_installed :=
         mean_deadlocks_per_sec_agent_installed a;
       mean_wait_time_agent_installed := mean_wait_time_agent_installed a;
       mean_latch_wait_time_agent_installed :=
         mean_latch_wait_time_agent_installed a |}.

Definition ProcessLoadTestResult (self : t) (agent_installed : bool)
  : M unit :=
  out <- _GetLoadTestResult self ;;
  let result := tl (Py.split "010" out) in
  s <- lift (collect result no_samples) ;;
  m0 <- lift (round_mean (trans_per_sec s)) ;;
  m3 <- lift (round_mean (lock_reqs_per_sec s)) ;;
  m4 <- lift (round_mean (lock_timeouts_per_sec s)) ;;
  m5 <- lift (round_mean (lock_waits_per_sec s)) ;;
  m6 <- lift (round_mean (deadlocks_per_sec s)) ;;
  m7 <- lift (round_mean (avg_wait_time s)) ;;
  m8 <- lift (round_mean (avg_latch_wait_time s)) ;;
  a <- get_attrs ;;
  set_attrs (record_means agent_installed a m0 m3 m4 m5 m6 m7 m8) ;;
  _DeleteTestResult self.

(** The lines [GenerateLoadTestResult] appends to [result], in order. *)
Definition report_lines (a : Means) : list line :=
  let diff_trans_per_sec :=
    Z.abs (mean_trans_per_sec a - mean_trans_per_sec_agent_installed a) in
  let diff_lock_reqs_per_sec :=
    Z.abs (mean_lock_reqs_per_sec a
           - mean_lock_reqs_per_sec_agent_installed a) in
  let diff_lock_timeouts_per_sec :=
    Z.abs (mean_lock_timeouts_per_sec a
           - mean_lock_timeouts_per_sec_agent_installed a) in
  let diff_lock_waits_per_sec :=
    Z.abs (mean_lock_waits_per_sec a
           - mean_lock_waits_per_sec_agent_installed a) in
  let diff_deadlocks_per_sec :=
    Z.abs (mean_deadlocks_per_sec a
           - mean_deadlocks_per_sec_agent_installed a) in
  let diff_wait_time :=
    Z.abs (mean_wait_time a - mean_wait_time_agent_installed a) in
  let diff_latch_wait_time :=
    Z.abs (mean_latch_wait_time a - mean_latch_wait_time_agent_installed a) in
  [Line "mean_trans_per_sec" (IntVal (mean_trans_per_sec a));
   Line "mean_trans_per_sec_agent_installed"
        (IntVal (mean_trans_per_sec_agent_installed a))]
  ++ (if negb (mean_trans_per_sec a =? 0)%Z
      then [Line "diff_trans_per_sec"
                 (TrueDiv (diff_trans_per_sec * 100) (mean_trans_per_sec a))]
      else [])
  ++ [Line "mean_lock_reqs_per_sec" (IntVal (mean_lock_reqs_per_sec a));
      Line "mean_lock_reqs_per_sec_agent_installed"
           (IntVal (mean_lock_waits_per_sec_agent_installed a))]
  ++ (if negb (mean_lock_reqs_per_sec a =? 0)%Z
      then [Line "diff_lock_reqs_per_sec"
                 (TrueDiv (diff_lock_reqs_per_sec * 100)
                          (mean_lock_reqs_per_sec a))]
      else [])
  ++ [Line "mean_lock_timeouts_per_sec"
           (IntVal (mean_lock_timeouts_per_sec a));
      Line "mean_lock_timeouts_per_sec_agent_installed"
           (IntVal (mean_lock_timeouts_per_sec_agent_installed a))]
  ++ (if negb (mean_lock_timeouts_per_sec a =? 0)%Z
      then [Line "diff_lock_timeouts_per_sec"
                 (TrueDiv (diff_lock_timeouts_per_sec * 100)
                          (mean_lock_timeouts_per_sec a))]
      else [])
  ++ [Line "mean_lock_waits_per_sec" (IntVal (mean_lock_waits_per_sec a));
      Line "mean_lock_waits_per_sec_agent_installed"
           (IntVal (mean_lock_waits_per_sec_agent_installed a))]
  ++ (if negb (mean_lock_waits_per_sec a =? 0)%Z
      then [Line "diff_lock_waits_per_sec"
                 (TrueDiv (diff_lock_waits_per_sec * 100)
                          (mean_lock_waits_per_sec a))]
      else [])
  ++ [Line "mean_deadlocks_per_sec" (IntVal (mean_deadlocks_per_sec a));
      Line "mean_deadlocks_per_sec_agent_installed"
           (IntVal (mean_deadlocks_per_sec_agent_installed a))]
  ++ (if negb (mean_deadlocks_per_sec a =? 0)%Z
      then [Line "diff_deadlocks_per_sec"
                 (TrueDiv (diff_deadlocks_per_sec * 100)
                          (mean_deadlocks_per_sec a))]
      else [])
  ++ [Line "mean_wait_time" (IntVal (mean_wait_time a));
      Line "mean_wait_time_agent_installed"
           (IntVal (mean_wait_time_agent_installed a))]
  ++ (if negb (mean_wait_time a =? 0)%Z
      then [Line "diff_wait_time"
                 (TrueDiv (diff_wait_time * 100) (mean_wait_time a))]
      else [])
  ++ [Line "mean_latch_wait_time" (IntVal (mean_latch_wait_time a));
      Line "mean_latch_wait_time_agent_installed"
           (IntVal (mean_latch_wait_time_agent_installed a))]
  ++ (if negb (mean_latch_wait_time a =? 0)%Z
      then [Line "diff_latch_wait_time"
                 (TrueDiv (diff_latch_wait_time * 100)
                          (mean_latch_wait_time a))]
      else []).

(** [GenerateLoadTestResult] logs the report; the logged text is returned
    here. *)
Definition GenerateLoadTestResult (self : t) : M string :=
  a <- get_attrs ;;
  env <- ask ;;
  ret (Py.concat_all (map (render_line env) (report_lines a))).

End LoadtestHelper.

(** ** Every helper method that talks to a remote host *)

Inductive call : Type :=
  | Agent_AddRepo (h : AgentHelper.t)
  | Agent_InstallAgent (h : AgentHelper.t)
  | Agent_UpdateConfiguration (h : AgentHelper.t) (configuration : string)
  | Agent_ReadConfiguration (h : AgentHelper.t)
  | Agent_StartService (h : AgentHelper.t)
  | Agent_VerifyAgentRunning (h : AgentHelper.t)
  | Agent_VerifyEvaluationRun (h : AgentHelper.t)
  | Agent_ServiceStatus (h : AgentHelper.t)
  | Agent_StopService (h : AgentHelper.t)
  | Agent_DeleteLogFile (h : AgentHelper.t)
  | Agent_VerifyAgentInstallation (h : AgentHelper.t)
  | Agent_ListEvaluations (h : AgentHelper.t) (endpoint : string)
  | Agent_RunEvaluation (h : AgentHelper.t)
      (evaluation_id execution_id endpoint : string)
  | Agent_GetExecutionStatus (h : AgentHelper.t)
      (evaluation_id execution_id endpoint : string)
  | Integration_SetUpAgent (h : IntegrationHelper.t) (target_vm_id : Z)
      (configuration_name : string)
  | Integration_VerifyAgentRunning (h : IntegrationHelper.t) (target_vm_id : Z)
  | Integration_VerifyEvaluationRun (h : IntegrationHelper.t)
  | Integration_ListEvaluations (h : IntegrationHelper.t) (endpoint : string)
  | Integration_RunEvaluation (h : IntegrationHelper.t)
      (evaluation_id execution_id endpoint : string)
  | Integration_GetExecutionStatus (h : IntegrationHelper.t)
      (evaluation_id execution_id endpoint : string)
  | Soak_RunUploadLogFileScript (h : SoakTestHelper.t) (vm_id : Z)
  | Load_SetupHammerDB (h : LoadtestHelper.t)
  | Load_RunSqlScripts (h : LoadtestHelper.t) (file_name : string)
      (background : bool)
  | Load_StopBackgroundJob (h : LoadtestHelper.t)
  | Load_RunVirtualUsers (h : LoadtestHelper.t)
  | Load_RunTclScripts (h : LoadtestHelper.t) (file_name file_content : string)
  | Load_SaveFileToHammerDBFolder (h : LoadtestHelper.t)
      (filename file_content : string)
  | Load_GetLoadTestResult (h : LoadtestHelper.t)
  | Load_UploadLoadTestResultToBucket (h : LoadtestHelper.t)
      (agent_installed : bool)
  | Load_DeleteTestResult (h : LoadtestHelper.t)
  | Load_ProcessLoadTestResult (h : LoadtestHelper.t) (agent_installed : bool).

(** Forget the value a method returns. *)
Definition void {A} (m : M A) : M unit := m ;; ret tt.

Definition run_call (c : call) : M unit :=
  match c with
  | Agent_AddRepo h => AgentHelper.AddRepo h
  | Agent_InstallAgent h => AgentHelper.InstallAgent h
  | Agent_UpdateConfiguration h f => AgentHelper.UpdateConfiguration h f
  | Agent_ReadConfiguration h => void (AgentHelper.ReadConfiguration h)
  | Agent_StartService h => AgentHelper.StartService h
  | Agent_VerifyAgentRunning h => AgentHelper.VerifyAgentRunning h
  | Agent_VerifyEvaluationRun h => AgentHelper.VerifyEvaluationRun h
  | Agent_ServiceStatus h => void (AgentHelper._ServiceStatus h)
  | Agent_StopService h => AgentHelper._StopService h
  | Agent_DeleteLogFile h => AgentHelper._DeleteLogFile h
  | Agent_VerifyAgentInstallation h => AgentHelper._VerifyAgentInstallation h
  | Agent_ListEvaluations h ep => void (AgentHelper._ListEvaluations h ep)
  | Agent_RunEvaluation h ev ex ep => AgentHelper._RunEvaluation h ev ex ep
  | Agent_GetExecutionStatus h ev ex ep =>
      void (AgentHelper._GetExecutionStatus h ev ex ep)
  | Integration_SetUpAgent h id f => IntegrationHelper.SetUpAgent h id f
  | Integration_VerifyAgentRunning h id =>
      IntegrationHelper.VerifyAgentRunning h id
  | Integration_VerifyEvaluationRun h => IntegrationHelper.VerifyEvaluationRun h
  | Integration_ListEvaluations h ep =>
      void (IntegrationHelper._ListEvaluations h ep)
  | Integration_RunEvaluation h ev ex ep =>
      IntegrationHelper._RunEvaluation h ev ex ep
  | Integration_GetExecutionStatus h ev ex ep =>
      void (IntegrationHelper._GetExecutionStatus h ev ex ep)
  | Soak_RunUploadLogFileScript h id =>
      SoakTestHelper.RunUploadLogFileScript h id
  | Load_SetupHammerDB h => LoadtestHelper.SetupHammerDB h
  | Load_RunSqlScripts h f b => LoadtestHelper.RunSqlScripts h f b
  | Load_StopBackgroundJob h => LoadtestHelper.StopBackgroundJob h
  | Load_RunVirtualUsers h => LoadtestHelper.RunVirtualUsers h
  | Load_RunTclScripts h f c => LoadtestHelper._RunTclScripts h f c
  | Load_SaveFileToHammerDBFolder h f c =>
      LoadtestHelper._SaveFileToHammerDBFolder h f c
  | Load_GetLoadTestResult h => void (LoadtestHelper._GetLoadTestResult h)
  | Load_UploadLoadTestResultToBucket h b =>
      LoadtestHelper.UploadLoadTestResultToBucket h b
  | Load_DeleteTestResult h => LoadtestHelper._DeleteTestResult h
  | Load_ProcessLoadTestResult h b => LoadtestHelper.ProcessLoadTestResult h b
  end.

(** ** Vocabulary of the statements *)

(** The events a computation adds to the trace. *)
Definition new_events (w w' : World) : list event :=
  skipn (List.length (trace w)) (trace w').

Definition command_of (e : event) : option string :=
  match e with
  | Ran _ _ cmd _ => Some cmd
  | Slept _ => None
  end.

(** The commands of a trace, in the order they were sent. *)
Fixpoint commands (tr : list event) : list string :=
  match tr with
  | [] => []
  | Ran _ _ cmd _ :: rest => cmd :: commands rest
  | Slept _ :: rest => commands rest
  end.

(** What a remote call wrote to stderr (nothing when the framework raised
    or when the event is a sleep). *)
Definition stderr_of (e : event) : string :=
  match e with
  | Ran _ _ _ (Returned _ _ err) => err
  | _ => EmptyString
  end.


(** A remote call that did not signal a failure. *)
Definition quiet (e : event) : Prop := stderr_of e = EmptyString.

(** The text occurs in one of the exception's arguments. *)
Definition carries (text : string) (ex : exn) : bool :=
  existsb (Py.contains text) (args ex).

(** How a call site treats stderr, from the weakest to the strongest. *)
Inductive discipline : Type :=
  | Unchecked        (* stderr is not looked at *)
  | RaisesTyped      (* a typed exception, with a fixed message *)
  | RaisesWithText   (* a typed exception that carries the stderr text *)
  | RaisesWithCommand.
                     (* ... and also the command that failed *)

(** The exception [ex] answers the failing call [e] at level [d]. *)
Definition answers (d : discipline) (e : event) (ex : exn) : Prop :=
  match d with
  | Unchecked => True
  | RaisesTyped => typed (kind ex) = true
  | RaisesWithText =>
      typed (kind ex) = true /\ carries (stderr_of e) ex = true
  | RaisesWithCommand =>
      typed (kind ex) = true /\ carries (stderr_of e) ex = true /\
      exists cmd, command_of e = Some cmd /\ carries cmd ex = true
  end.

(** A run whose new events are [new] and whose result is [r] converts
    failures at level [d]: either no call wrote to stderr, or the only one
    that did is the last event of the run and [r] is an exception that
    answers it. *)
Inductive converts {A} (d : discipline) (r : result A) : list event -> Prop :=
  | converts_quiet new :
      Forall quiet new -> converts d r new
  | converts_raise init e ex :
      Forall quiet init -> ~ quiet e -> r = Raise ex -> answers d e ex ->
      converts d r (init ++ [e])%list.

(** The method [m] converts failures at level [d], whatever the environment
    and the starting state. *)
Definition converting {A} (d : discipline) (m : M A) : Prop :=
  forall env w,
    exists new,
      trace (snd (m env w)) = (trace w ++ new)%list /\
      converts d (fst (m env w)) new.




(** ** Scripts of answers, for the polling statements *)

(** The remote calls numbered from [n0] on, sent to [v] with text [cmd], are
    answered in turn by [answers] (status and stdout), with nothing on
    stderr. *)
Definition answered (env : Env) (n0 : nat) (v : vm) (cmd : string)
    (answers : list (Z * string)) : Prop :=
  forall j st out,
    nth_error answers j = Some (st, out) ->
    remote env (n0 + j) PowerShell v cmd = Returned st out EmptyString.

Definition get_event (v : vm) (cmd : string) (a : Z * string) : event :=
  Ran PowerShell v cmd (Returned (fst a) (snd a) EmptyString).

(** One status request per answer, with a 60 second sleep before each one
    but the first. *)
Definition polling_events (v : vm) (cmd : string) (answers : list (Z * string))
  : list event :=
  match answers with
  | [] => []
  | a :: rest =>
      get_event v cmd a
      :: flat_map (fun a' => [Slept 60; get_event v cmd a']) rest
  end.

(** The state read from [out] is RUNNING. *)
Definition running (env : Env) (out : string) : Prop :=
  json_state env out = Ok "RUNNING".

(** Starting from the answer [out], the answers [rest] follow while the
    state is RUNNING, and the last of them has the state [s], which is not
    RUNNING. *)
Fixpoint settles (env : Env) (out : string) (rest : list (Z * string))
    (s : string) : Prop :=
  match rest with
  | [] => json_state env out = Ok s /\ s <> "RUNNING"
  | a :: rest' => running env out /\ settles env (snd a) rest' s
  end.

(** The request for the status followed by the loop, as both helpers write
    it. *)
Definition get_status (v : vm) (cmd : string) : M string :=
  '(_, out, err) <- bct_test_utils.RunCommandOnVm v cmd false ;;
  if Py.truthy err
  then raise (Exn EvaluationExecutionError
                ["Failed to get execution status: " ++ err])
  else poll v cmd 10 out.

(** ** A scripted environment, for the examples *)

(** The text that follows the first occurrence of [key] in [s]. *)
Fixpoint text_after (key s : string) : option string :=
  if String.prefix key s then Some (String.substring (String.length key)
                                      (String.length s - String.length key) s)
  else match s with
       | EmptyString => None
       | String _ s' => text_after key s'
       end.

(** The text before the first double quote. *)
Fixpoint until_quote (s : string) : string :=
  match s with
  | EmptyString => EmptyString
  | String c s' =>
      if Ascii.eqb c "034" then EmptyString else String c (until_quote s')
  end.

(** A reader of the string member [name] of a flat JSON text; it stands in
    for the JSON library in the examples. *)
Definition member (name s : string) : result string :=
  match text_after (Py.dq ++ name ++ Py.dq ++ ": " ++ Py.dq) s with
  | Some rest => Ok (until_quote rest)
  | None => Raise (Exn KeyError [name])
  end.

(** The JSON text [{"state": "s"}]. *)
Definition state_json (s : string) : string :=
  "{" ++ Py.dq ++ "state" ++ Py.dq ++ ": " ++ Py.dq ++ s ++ Py.dq ++ "}".

(** An environment whose remote answers come from a list, in order; once
    the list is used up every call returns an empty answer. *)
Definition scripted (answers : list outcome)
    (files : string -> result string) (secret : string) : Env :=
  {| remote := fun n _ _ _ => nth n answers (Returned 0 EmptyString EmptyString);
     resource_file := files;
     secret_value := fun _ _ => secret;
     private_ip := fun _ => "10.0.0.2";
     current_user := "tester";
     now := "2024-05-01-10-00-00";
     uuid4 := "8f2c1b9e-0000-4000-8000-000000000001";
     json_state := member "state";
     json_first_evaluation_name := member "name";
     float_str := fun a b => Py.str_int a ++ "/" ++ Py.str_int b |}.

Definition no_files (name : string) : result string :=
  Raise (Exn FileNotFoundError [name]).

(** Every resource file holds the same text. *)
Definition one_file (content : string) (name : string) : result string :=
  Ok content.

Definition empty_world : World :=
  {| trace := []; attrs := LoadtestHelper.zero_means |}.

Definition windows_agent : AgentHelper.t :=
  {| AgentHelper._vm := "vm-sql";
     AgentHelper._windows := true;
     AgentHelper._repo_version := "unstable";
     AgentHelper._gce_bucket := "sql-server-agent-integration";
     AgentHelper._g3_file_path :=
       "gs://sql-server-agent-integration/tester/google-cloud-sql-server-agent.exe" |}.

Definition integration_helper : IntegrationHelper.t :=
  {| IntegrationHelper._repo_version := "unstable";
     IntegrationHelper._vm_win_local := "vm-win-local";
     IntegrationHelper._vm_win_remote := "vm-win-remote";
     IntegrationHelper._vm_rhel := "vm-rhel";
     IntegrationHelper._vm_suse := "vm-suse";
     IntegrationHelper._gce_bucket := "sql-server-agent-integration";
     IntegrationHelper._g3_file_path_win :=
       "gs://sql-server-agent-integration/tester/google-cloud-sql-server-agent.exe";
     IntegrationHelper._g3_file_path_linux :=
       "gs://sql-server-agent-integration/tester/google-cloud-sql-server-agent" |}.

Definition loadtest_helper : LoadtestHelper.t :=
  {| LoadtestHelper._vm_sqlserver := "loadtest-sqlserver";
     LoadtestHelper._vm_hammerdb := "loadtest-hammerdb-instance";
     LoadtestHelper._hammerdb_path := "C:\Program Files\HammerDB-4.9";
     LoadtestHelper._project_number := "670032142250";
     LoadtestHelper._secret_name := "integration-test-pswd";
     LoadtestHelper._background_job_name := "run-load-test-background";
     LoadtestHelper._test_result_path := "C:\Windows\Temp\sqlPerf.log*";
     LoadtestHelper._raw_data_file_name_prefix := "loadtest-2024-05-01-10-00-00";
     LoadtestHelper._raw_data_bucket_path_prefix :=
       "gs://sql-server-agent-integration/loadtest-rawdata/" |}.

(** A remote answer with the given stdout and nothing on stderr. *)
Definition says (out : string) : outcome := Returned 0 out EmptyString.

Definition to_outcome (a : Z * string) : outcome :=
  Returned (fst a) (snd a) EmptyString.

Definition evaluations_json : string :=
  "{" ++ Py.dq ++ "evaluations" ++ Py.dq ++ ": [{" ++ Py.dq ++ "name" ++ Py.dq
  ++ ": " ++ Py.dq
  ++ "projects/p/locations/us-central1/evaluations/eval-7" ++ Py.dq ++ "}]}".

Definition succeeds_third : list (Z * string) :=
  [(0%Z, state_json "RUNNING"); (0%Z, state_json "RUNNING");
   (0%Z, state_json "SUCCEEDED")].

Definition evaluation_env : Env :=
  scripted ([says evaluations_json; says "done"] ++ map to_outcome succeeds_third)
    no_files EmptyString.










(** ** Vocabulary for the load-test aggregator *)

(** [cols[i]] of a row. *)
Definition cell (i : nat) (row : string) : string :=
  nth i (Py.split "," row) EmptyString.

(** The row splits into exactly nine comma-separated fields. *)
Definition well_formed (row : string) : bool :=
  (List.length (Py.split "," row) =? 9)%nat.

(** The columns the aggregator reads. *)
Definition used_columns : list nat := [0; 3; 4; 5; 6; 7; 8]%nat.

Definition is_int (s : string) : bool :=
  match Py.int s with
  | Some _ => true
  | None => false
  end.

(** Every column the aggregator reads holds an integer literal. *)
Definition parses (row : string) : bool :=
  forallb (fun i => is_int (cell i row)) used_columns.

(** The integers of column [i], one per row. *)
Definition column (i : nat) (rows : list string) : list Z :=
  map (fun row => match Py.int (cell i row) with
                  | Some z => z
                  | None => 0%Z
                  end) rows.

Definition samples_of (rows : list string) : Samples :=
  {| trans_per_sec := column 0 rows;
     lock_reqs_per_sec := column 3 rows;
     lock_timeouts_per_sec := column 4 rows;
     lock_waits_per_sec := column 5 rows;
     deadlocks_per_sec := column 6 rows;
     avg_wait_time := column 7 rows;
     avg_latch_wait_time := column 8 rows |}.


(** The rows of a log that the aggregator keeps: the header is dropped, then
    the rows that are not well formed. *)
Definition kept_rows (out : string) : list string :=
  filter well_formed (tl (Py.split "010" out)).

Definition append_samples (s t : Samples) : Samples :=
  {| trans_per_sec := trans_per_sec s ++ trans_per_sec t;
     lock_reqs_per_sec := lock_reqs_per_sec s ++ lock_reqs_per_sec t;
     lock_timeouts_per_sec := lock_timeouts_per_sec s ++ lock_timeouts_per_sec t;
     lock_waits_per_sec := lock_waits_per_sec s ++ lock_waits_per_sec t;
     deadlocks_per_sec := deadlocks_per_sec s ++ deadlocks_per_sec t;
     avg_wait_time := avg_wait_time s ++ avg_wait_time t;
     avg_latch_wait_time := avg_latch_wait_time s ++ avg_latch_wait_time t |}.



Definition two_row_log : string :=
  "trans,a,b,reqs,timeouts,waits,deadlocks,wait,latch" ++ Py.nl
  ++ "100,-,-,5,0,2,1,10,20" ++ Py.nl
  ++ "200,-,-,7,1,3,2,12,22".

(** A log with a header and no well-formed row. *)
Definition rowless_log : string :=
  "trans,a,b,reqs,timeouts,waits,deadlocks,wait,latch" ++ Py.nl
  ++ "broken" ++ Py.nl.

(** ** Vocabulary for the report *)




(** A setup script with the password placeholder, for the examples. *)
Definition setups_template : string :=
  "dbset db mssqls" ++ Py.nl
  ++ "diset connection mssqls_pass %PASSWORD%" ++ Py.nl
  ++ "buildschema" ++ Py.nl.

(** The script once the password is filled in. *)
Definition setups_filled (pswd : string) : string :=
  "dbset db mssqls" ++ Py.nl
  ++ "diset connection mssqls_pass " ++ pswd ++ Py.nl
  ++ "buildschema" ++ Py.nl.

(** ** The test entry points that drive the helpers *)

(** [for _ in range(n): body]. *)
Fixpoint repeat_m (n : nat) (body : M unit) : M unit :=
  match n with
  | O => ret tt
  | S n' => body ;; repeat_m n' body
  end.

(** [integration_test/integration_test.py], the test methods; the helper is
    the one [setUpClass] built. *)
Module IntegrationTest.

Definition _runAgentAndVerify (helper : IntegrationHelper.t) (vm_id : Z)
    (configuration : string) : M unit :=
  IntegrationHelper.SetUpAgent helper vm_id configuration ;;
  IntegrationHelper.VerifyAgentRunning helper vm_id.

Definition testLocalCollectionRhel (helper : IntegrationHelper.t) : M unit :=
  _runAgentAndVerify helper VM_ID_RHEL "local.json".

Definition testLocalCollectionSuse (helper : IntegrationHelper.t) : M unit :=
  _runAgentAndVerify helper VM_ID_SUSE "local.json".

Definition testLocalCollectionWin (helper : IntegrationHelper.t) : M unit :=
  _runAgentAndVerify helper VM_ID_WIN_LOCAL "local.json".

Definition testRemoteCollection (helper : IntegrationHelper.t) : M unit :=
  _runAgentAndVerify helper VM_ID_WIN_REMOTE "remote-integration.json".

End IntegrationTest.

(** [soak_test/soak_test.py], the test method. *)
Module SoakTest.

Definition testSoakTest (helper : IntegrationHelper.t) : M unit :=
  IntegrationHelper.SetUpAgent helper VM_ID_WIN_LOCAL "local.json" ;;
  IntegrationHelper.SetUpAgent helper VM_ID_WIN_REMOTE "remote-soak.json" ;;
  IntegrationHelper.SetUpAgent helper VM_ID_RHEL "local.json" ;;
  IntegrationHelper.SetUpAgent helper VM_ID_SUSE "local.json" ;;
  (* let the test run for 10 days *)
  repeat_m 10 (repeat_m 24 (sleep 3600)).

End SoakTest.

(** [load_test/loadtest.py], the test methods; the helpers are the ones
    [setUpClass] and the test build. *)
Module LoadTest.

Definition testLoadTest (lt_helper : LoadtestHelper.t) : M unit :=
  LoadtestHelper.RunSqlScripts lt_helper "run_loadtest.sql" true ;;
  LoadtestHelper.RunVirtualUsers lt_helper ;;
  LoadtestHelper.StopBackgroundJob lt_helper ;;
  LoadtestHelper.UploadLoadTestResultToBucket lt_helper false ;;
  LoadtestHelper.ProcessLoadTestResult lt_helper false.

Definition testLoadTestWithAgentInstalled (vm_sqlserver : vm)
    (lt_helper : LoadtestHelper.t) : M unit :=
  ah <- AgentHelper.__init__ vm_sqlserver true "unstable" ;;
  AgentHelper.AddRepo ah ;;
  AgentHelper.InstallAgent ah ;;
  AgentHelper.UpdateConfiguration ah "local.json" ;;
  AgentHelper.StartService ah ;;
  AgentHelper.VerifyAgentRunning ah ;;
  LoadtestHelper.RunSqlScripts lt_helper "run_loadtest.sql" true ;;
  LoadtestHelper.RunVirtualUsers lt_helper ;;
  LoadtestHelper.StopBackgroundJob lt_helper ;;
  LoadtestHelper.UploadLoadTestResultToBucket lt_helper true ;;
  LoadtestHelper.ProcessLoadTestResult lt_helper true.

Definition testTestResult (lt_helper : LoadtestHelper.t) : M string :=
  LoadtestHelper.GenerateLoadTestResult lt_helper.

End LoadTest.

(** ** More vocabulary *)

(** Every event a method adds to the trace satisfies [P]. *)
Definition emitting {A} (P : event -> Prop) (m : M A) : Prop :=
  forall env w,
    exists new,
      trace (snd (m env w)) = (trace w ++ new)%list /\ Forall P new.

(** A remote call goes through the PowerShell runner. *)
Definition over_powershell (e : event) : Prop :=
  match e with
  | Ran ch _ _ _ => ch = PowerShell
  | Slept _ => True
  end.

(** A remote call is addressed to [v]. *)
Definition sent_to (v : vm) (e : event) : Prop :=
  match e with
  | Ran _ v' _ _ => v' = v
  | Slept _ => True
  end.

(** A remote call carries no command text. *)
Definition sends_nothing (e : event) : Prop :=
  match e with
  | Ran _ _ cmd _ => cmd = EmptyString
  | Slept _ => True
  end.

(** Total time slept in a trace, in seconds. *)
Fixpoint slept_seconds (tr : list event) : Z :=
  match tr with
  | [] => 0
  | Slept n :: rest => n + slept_seconds rest
  | Ran _ _ _ _ :: rest => slept_seconds rest
  end.

(** The hosts of a trace's remote calls, in order. *)
Fixpoint hosts (tr : list event) : list vm :=
  match tr with
  | [] => []
  | Ran _ v _ _ :: rest => v :: hosts rest
  | Slept _ :: rest => hosts rest
  end.

(** Every resource file can be read. *)
Definition files_present (env : Env) : Prop :=
  forall name, exists content, resource_file env name = Ok content.

(** The framework never raises: every remote call returns. *)
Definition always_returns (env : Env) : Prop :=
  forall n ch v cmd,
    exists st out err, remote env n ch v cmd = Returned st out err.

(** Every remote call returns and writes nothing to stderr. *)
Definition always_quiet (env : Env) : Prop :=
  forall n ch v cmd,
    exists st out, remote env n ch v cmd = Returned st out EmptyString.





(** More examples: an agent helper built without the Windows flag, and an
    environment where every file reads the same and every call returns an
    empty answer. *)
Definition linux_agent : AgentHelper.t :=
  {| AgentHelper._vm := "vm-rhel";
     AgentHelper._windows := false;
     AgentHelper._repo_version := "unstable";
     AgentHelper._gce_bucket := "sql-server-agent-integration";
     AgentHelper._g3_file_path :=
       "gs://sql-server-agent-integration/tester/google-cloud-sql-server-agent.exe" |}.

Definition plain_env : Env :=
  scripted [] (one_file "echo ok") EmptyString.

(** [sep.join(fields)] for a one-character separator. *)
Fixpoint rejoin (sep : ascii) (fields : list string) : string :=
  match fields with
  | [] => EmptyString
  | f :: rest =>
      match rest with
      | [] => f
      | _ => f ++ String sep (rejoin sep rest)
      end
  end.

(** The character does not occur in the text. *)
Fixpoint free_of (c : ascii) (s : string) : bool :=
  match s with
  | EmptyString => true
  | String x s' => negb (Ascii.eqb x c) && free_of c s'
  end.

(** The text is empty or ends with the character. *)
Fixpoint closed_by (c : ascii) (s : string) : bool :=
  match s with
  | EmptyString => true
  | String x EmptyString => Ascii.eqb x c
  | String _ s' => closed_by c s'
  end.

(** * Properties *)
Example split_rows : Py.split "," "1,,3" = ["1"; EmptyString; "3"].
Proof. reflexivity. Qed.

Example replace_dollar : Py.replace "$" "`$" "a$b$$" = "a`$b`$`$".
Proof. reflexivity. Qed.

Example replace_multi : Py.replace "aa" "b" "aaaXaa" = "baXb".
Proof. reflexivity. Qed.

Example int_examples :
  Py.int " 42" = Some 42%Z /\ Py.int "-7" = Some (-7)%Z /\
  Py.int "1_000" = Some 1000%Z /\ Py.int "-" = None /\ Py.int EmptyString = None /\
  Py.int "1__0" = None /\ Py.int "12_" = None.
Proof. repeat split; reflexivity. Qed.

Example round_examples :
  Py.round_div 5 2 = 2%Z /\ Py.round_div 7 2 = 4%Z /\
  Py.round_div (-5) 2 = (-2)%Z /\ Py.round_div 300 2 = 150%Z /\
  Py.round_div 10 3 = 3%Z /\ Py.round_div 11 3 = 4%Z.
Proof. repeat split; reflexivity. Qed.

(** ** Strings *)


Lemma append_assoc (a b c : string) : (a ++ b) ++ c = a ++ b ++ c.
Proof. induction a as [|x a IH]; simpl; [reflexivity | now rewrite IH]. Qed.







(** ** Running the monad *)

Lemma bind_ok {A B} (m : M A) (k : A -> M B) env w a w1 :
  m env w = (Ok a, w1) -> bind m k env w = k a env w1.
Proof. intros H. unfold bind. now rewrite H. Qed.

Lemma bind_raise {A B} (m : M A) (k : A -> M B) env w e w1 :
  m env w = (Raise e, w1) -> bind m k env w = (Raise e, w1).
Proof. intros H. unfold bind. now rewrite H. Qed.

Lemma calls_app (tr1 tr2 : list event) :
  calls (tr1 ++ tr2) = calls tr1 + calls tr2.
Proof. unfold calls. now rewrite filter_app, length_app. Qed.

Lemma calls_slept (w : World) (n : Z) :
  calls (trace (record_event (Slept n) w)) = calls (trace w).
Proof.
  unfold record_event. cbn [trace]. rewrite calls_app.
  unfold calls at 2. simpl. lia.
Qed.

Lemma calls_ran (w : World) ch v cmd o :
  calls (trace (record_event (Ran ch v cmd o) w)) = S (calls (trace w)).
Proof.
  unfold record_event. cbn [trace]. rewrite calls_app.
  unfold calls at 2. simpl. lia.
Qed.

Lemma remote_call_returned env w ch v cmd st out err :
  remote env (calls (trace w)) ch v cmd = Returned st out err ->
  remote_call ch v cmd env w
  = (Ok (st, out, err), record_event (Ran ch v cmd (Returned st out err)) w).
Proof. intros H. unfold remote_call. now rewrite H. Qed.

Lemma remote_call_failed env w ch v cmd e :
  remote env (calls (trace w)) ch v cmd = Failed e ->
  remote_call ch v cmd env w
  = (Raise e, record_event (Ran ch v cmd (Failed e)) w).
Proof. intros H. unfold remote_call. now rewrite H. Qed.

Lemma run_on_vm v cmd :
  bct_test_utils.RunCommandOnVm v cmd false = remote_call PowerShell v cmd.
Proof. reflexivity. Qed.

Lemma run_ask {B} (k : Env -> M B) env w : bind ask k env w = k env env w.
Proof. reflexivity. Qed.

Lemma run_lift_ok {A B} (a : A) (k : A -> M B) env w :
  bind (lift (Ok a)) k env w = k a env w.
Proof. reflexivity. Qed.

Lemma run_lift_raise {A B} (e : exn) (k : A -> M B) env w :
  bind (lift (Raise e)) k env w = (Raise e, w).
Proof. reflexivity. Qed.

Lemma run_ret {A B} (a : A) (k : A -> M B) env w :
  bind (ret a) k env w = k a env w.
Proof. reflexivity. Qed.

Lemma run_raise {A B} (e : exn) (k : A -> M B) env w :
  bind (raise e) k env w = (Raise e, w).
Proof. reflexivity. Qed.

Lemma run_sleep {B} (n : Z) (k : unit -> M B) env w :
  bind (sleep n) k env w = k tt env (record_event (Slept n) w).
Proof. reflexivity. Qed.

Lemma run_get_attrs {B} (k : Means -> M B) env w :
  bind get_attrs k env w = k (attrs w) env w.
Proof. reflexivity. Qed.

Lemma run_set_attrs {B} (a : Means) (k : unit -> M B) env w :
  bind (set_attrs a) k env w = k tt env {| trace := trace w; attrs := a |}.
Proof. reflexivity. Qed.

Lemma run_assoc {A B C} (m : M A) (k1 : A -> M B) (k2 : B -> M C) env w :
  bind (bind m k1) k2 env w = bind m (fun a => bind (k1 a) k2) env w.
Proof. unfold bind. destruct (m env w) as [[a|e] w1]; reflexivity. Qed.

Lemma run_call_returned {B} (k : Z * string * string -> M B)
    env w ch v cmd st out err :
  remote env (calls (trace w)) ch v cmd = Returned st out err ->
  bind (remote_call ch v cmd) k env w
  = k (st, out, err) env (record_event (Ran ch v cmd (Returned st out err)) w).
Proof. intros H. apply bind_ok. now apply remote_call_returned. Qed.

(** ** The polling loop *)

Lemma answered_tail env n0 v cmd a rest :
  answered env n0 v cmd (a :: rest) -> answered env (S n0) v cmd rest.
Proof.
  intros H j st out Hj. replace (S n0 + j) with (n0 + S j) by lia.
  now apply H.
Qed.

Lemma answered_head env n0 v cmd a rest :
  answered env n0 v cmd (a :: rest) ->
  remote env n0 PowerShell v cmd = Returned (fst a) (snd a) EmptyString.
Proof.
  intros H. destruct a as [st out]. replace n0 with (n0 + 0) by lia.
  now apply H.
Qed.

(** One turn of the loop on a RUNNING answer: a sleep, then one request. *)
Lemma poll_step env v cmd n out a w :
  running env out ->
  remote env (calls (trace w)) PowerShell v cmd
  = Returned (fst a) (snd a) EmptyString ->
  poll v cmd (S n) out env w
  = poll v cmd n (snd a) env
      (record_event (get_event v cmd a) (record_event (Slept 60) w)).
Proof.
  intros Hrun Hans. unfold running in Hrun.
  cbn [poll]. rewrite run_ask, Hrun, run_lift_ok, String.eqb_refl, run_sleep.
  rewrite run_on_vm.
  erewrite run_call_returned by (rewrite calls_slept; exact Hans).
  reflexivity.
Qed.

(** On a settled answer the loop returns at once. *)
Lemma poll_done env v cmd n out s w :
  json_state env out = Ok s -> s <> "RUNNING" ->
  poll v cmd (S n) out env w = (Ok s, w).
Proof.
  intros Hs Hne. cbn [poll]. rewrite run_ask, Hs, run_lift_ok.
  apply String.eqb_neq in Hne. now rewrite Hne.
Qed.

(** While the answers say RUNNING, each of the [n] turns costs a sleep and a
    request; the text of the last answer is never read. *)
Lemma poll_exhausted env v cmd :
  forall n rest out w,
    List.length rest = n ->
    Forall (running env) (firstn n (out :: map snd rest)) ->
    answered env (calls (trace w)) v cmd rest ->
    poll v cmd n out env w
    = (Ok "FAILED",
       {| trace := trace w
                   ++ flat_map (fun a => [Slept 60; get_event v cmd a]) rest;
          attrs := attrs w |}).
Proof.
  induction n as [|n IH]; intros rest out w Hlen Hrun Hans.
  - destruct rest; [|discriminate]. simpl. rewrite app_nil_r.
    now destruct w.
  - destruct rest as [|a rest]; [discriminate|].
    simpl in Hlen. injection Hlen as Hlen.
    simpl in Hrun. inversion Hrun as [|? ? Hout Hrest]; subst.
    rewrite (@poll_step env v cmd (List.length rest) out a w Hout
               (answered_head Hans)).
    rewrite (IH rest (snd a)); [| reflexivity | exact Hrest |].
    + simpl. do 2 rewrite <- app_assoc. reflexivity.
    + unfold get_event. rewrite calls_ran, calls_slept.
      now apply answered_tail in Hans.
Qed.

(** When an answer settles before the turns run out, the loop returns its
    state right after the request that fetched it. *)
Lemma poll_settled env v cmd s :
  forall rest n out w,
    (List.length rest < n)%nat ->
    settles env out rest s ->
    answered env (calls (trace w)) v cmd rest ->
    poll v cmd n out env w
    = (Ok s,
       {| trace := trace w
                   ++ flat_map (fun a => [Slept 60; get_event v cmd a]) rest;
          attrs := attrs w |}).
Proof.
  induction rest as [|a rest IH]; intros n out w Hlen Hset Hans.
  - destruct n; [inversion Hlen|]. destruct Hset as [Hs Hne].
    rewrite (@poll_done env v cmd n out s w Hs Hne). simpl. rewrite app_nil_r.
    now destruct w.
  - destruct n; [inversion Hlen|]. simpl in Hlen.
    destruct Hset as [Hout Hset].
    rewrite (@poll_step env v cmd n out a w Hout (answered_head Hans)).
    rewrite (IH n (snd a)); [| lia | exact Hset |].
    + simpl. do 2 rewrite <- app_assoc. reflexivity.
    + unfold get_event. rewrite calls_ran, calls_slept.
      now apply answered_tail in Hans.
Qed.

Lemma new_events_app w a evs :
  new_events w {| trace := trace w ++ evs; attrs := a |} = evs.
Proof.
  unfold new_events. cbn [trace].
  rewrite skipn_app, skipn_all, Nat.sub_diag. reflexivity.
Qed.

Lemma get_status_exhausted env w v cmd answers :
  List.length answers = 11 ->
  Forall (running env) (firstn 10 (map snd answers)) ->
  answered env (calls (trace w)) v cmd answers ->
  get_status v cmd env w
  = (Ok "FAILED",
     {| trace := trace w ++ polling_events v cmd answers; attrs := attrs w |}).
Proof.
  intros Hlen Hrun Hans.
  destruct answers as [|a rest]; [discriminate|].
  unfold get_status. rewrite run_on_vm.
  erewrite run_call_returned by (exact (answered_head Hans)).
  cbn [Py.truthy].
  rewrite (@poll_exhausted env v cmd 10 rest).
  - cbn [trace attrs record_event polling_events]. rewrite <- app_assoc. reflexivity.
  - simpl in Hlen. lia.
  - exact Hrun.
  - rewrite calls_ran. now apply answered_tail in Hans.
Qed.

Lemma get_status_settled env w v cmd a0 rest s :
  (List.length (a0 :: rest) <= 10)%nat ->
  settles env (snd a0) rest s ->
  answered env (calls (trace w)) v cmd (a0 :: rest) ->
  get_status v cmd env w
  = (Ok s,
     {| trace := trace w ++ polling_events v cmd (a0 :: rest);
        attrs := attrs w |}).
Proof.
  intros Hlen Hset Hans.
  unfold get_status. rewrite run_on_vm.
  erewrite run_call_returned by (exact (answered_head Hans)).
  cbn [Py.truthy].
  rewrite (@poll_settled env v cmd s rest 10).
  - cbn [trace attrs record_event polling_events]. rewrite <- app_assoc. reflexivity.
  - simpl in Hlen. lia.
  - exact Hset.
  - rewrite calls_ran. now apply answered_tail in Hans.
Qed.

Lemma calls_polling v cmd answers :
  calls (polling_events v cmd answers) = List.length answers.
Proof.
  destruct answers as [|a rest]; [reflexivity|].
  unfold calls. simpl. f_equal.
  induction rest as [|b rest IH]; simpl; [reflexivity | now rewrite IH].
Qed.

Lemma agent_get_status (self : AgentHelper.t) ev ex ep :
  AgentHelper._GetExecutionStatus self ev ex ep
  = get_status (AgentHelper._vm self)
      (if AgentHelper._windows self then get_execution_cmd ep ev ex
       else EmptyString).
Proof. reflexivity. Qed.

Lemma integration_get_status (self : IntegrationHelper.t) ev ex ep :
  IntegrationHelper._GetExecutionStatus self ev ex ep
  = get_status (IntegrationHelper._vm_win_local self)
      (get_execution_cmd ep ev ex).
Proof. reflexivity. Qed.

(** The scripted environment answers as its script says. *)
Lemma scripted_answered pre answers files secret v cmd :
  answered (scripted (pre ++ map to_outcome answers) files secret)
    (List.length pre) v cmd answers.
Proof.
  intros j st out Hj. cbn [remote scripted].
  rewrite app_nth2 by lia.
  replace (List.length pre + j - List.length pre) with j by lia.
  apply (map_nth_error to_outcome) in Hj.
  now rewrite (nth_error_nth _ _ _ Hj).
Qed.

(** ** The evaluation poller *)

(** C1 (evaluated on the code).  When the first ten answers all say RUNNING,
    [_GetExecutionStatus] returns FAILED without raising, in both helpers,
    but it has then sent eleven status requests: one before the loop and one
    in each of its ten turns; the text of the eleventh answer is never
    read. *)
Theorem GetExecutionStatus_running_throughout :
  forall env w (agent : AgentHelper.t) (integration : IntegrationHelper.t)
         ev ex ep answers,
    let cmd_a := if AgentHelper._windows agent then get_execution_cmd ep ev ex
                 else EmptyString in
    let cmd_i := get_execution_cmd ep ev ex in
    List.length answers = 11 ->
    Forall (running env) (firstn 10 (map snd answers)) ->
    (answered env (calls (trace w)) (AgentHelper._vm agent) cmd_a answers ->
     AgentHelper._GetExecutionStatus agent ev ex ep env w
     = (Ok "FAILED",
        {| trace := trace w
                    ++ polling_events (AgentHelper._vm agent) cmd_a answers;
           attrs := attrs w |})) /\
    (answered env (calls (trace w)) (IntegrationHelper._vm_win_local integration)
       cmd_i answers ->
     IntegrationHelper._GetExecutionStatus integration ev ex ep env w
     = (Ok "FAILED",
        {| trace := trace w
                    ++ polling_events
                         (IntegrationHelper._vm_win_local integration)
                         cmd_i answers;
           attrs := attrs w |})) /\
    calls (polling_events (AgentHelper._vm agent) cmd_a answers) = 11 /\
    calls (polling_events (IntegrationHelper._vm_win_local integration)
             cmd_i answers) = 11.
Proof.
  intros env w agent integration ev ex ep answers cmd_a cmd_i Hlen Hrun.
  repeat split.
  - intros Hans. rewrite agent_get_status.
    now apply get_status_exhausted.
  - intros Hans. rewrite integration_get_status.
    now apply get_status_exhausted.
  - now rewrite calls_polling.
  - now rewrite calls_polling.
Qed.

(** Eleven answers that all say RUNNING. *)
Lemma GetExecutionStatus_running_throughout_example :
  let answers := repeat (0%Z, state_json "RUNNING") 11 in
  let env := scripted (map to_outcome answers) no_files EmptyString in
  fst (AgentHelper._GetExecutionStatus windows_agent "e1" "x1" "host" env
         empty_world) = Ok "FAILED" /\
  calls (trace (snd (AgentHelper._GetExecutionStatus windows_agent "e1" "x1"
                       "host" env empty_world))) = 11.
Proof.
  intros answers env.
  destruct (@GetExecutionStatus_running_throughout env empty_world
              windows_agent integration_helper "e1" "x1" "host" answers)
    as (Ha & _ & Hn & _).
  - reflexivity.
  - repeat constructor.
  - rewrite Ha.
    + split; [reflexivity|]. cbn [snd trace empty_world app]. exact Hn.
    + exact (@scripted_answered [] answers no_files EmptyString _ _).
Defined.

(** The three steps of [VerifyEvaluationRun], once each has returned. *)
Lemma agent_verify_evaluation_steps (self : AgentHelper.t) env w :
  let ep := if String.eqb (AgentHelper._repo_version self) "google3"
            then "autopush-workloadmanager.sandbox.googleapis.com"
            else "workloadmanager.googleapis.com" in
  forall eid w1 w2 s w3,
    AgentHelper._ListEvaluations self ep env w = (Ok eid, w1) ->
    AgentHelper._RunEvaluation self eid (uuid4 env) ep env w1 = (Ok tt, w2) ->
    AgentHelper._GetExecutionStatus self eid (uuid4 env) ep env w2
    = (Ok s, w3) ->
    AgentHelper.VerifyEvaluationRun self env w
    = (if String.eqb s "FAILED"
       then Raise (Exn EvaluationExecutionError
                     ["Execution=" ++ uuid4 env ++ " of Evaluation=" ++ eid
                      ++ " failed."])
       else Ok tt, w3).
Proof.
  intros ep eid w1 w2 s w3 Hlist Hrun Hget.
  unfold AgentHelper.VerifyEvaluationRun. fold ep.
  rewrite (@bind_ok _ _ _ _ _ _ _ _ Hlist), run_ask.
  rewrite (@bind_ok _ _ _ _ _ _ _ _ Hrun), (@bind_ok _ _ _ _ _ _ _ _ Hget).
  now destruct (String.eqb s "FAILED").
Qed.

(** C6.  If an answer with a state other than RUNNING arrives at one of the
    first ten status requests, [_GetExecutionStatus] returns that state and
    its trace ends with the request that fetched it: one sleep before each
    request but the first, none after the last.  [VerifyEvaluationRun], once
    its three steps have returned, raises [EvaluationExecutionError] exactly
    when the state is FAILED and returns normally for any other state. *)
Theorem poller_returns_settled_state :
  forall env w (self : AgentHelper.t) ev ex a0 rest s,
    let ep := if String.eqb (AgentHelper._repo_version self) "google3"
              then "autopush-workloadmanager.sandbox.googleapis.com"
              else "workloadmanager.googleapis.com" in
    let cmd := if AgentHelper._windows self then get_execution_cmd ep ev ex
               else EmptyString in
    (List.length (a0 :: rest) <= 10)%nat ->
    settles env (snd a0) rest s ->
    answered env (calls (trace w)) (AgentHelper._vm self) cmd (a0 :: rest) ->
    AgentHelper._GetExecutionStatus self ev ex ep env w
    = (Ok s,
       {| trace := trace w
                   ++ polling_events (AgentHelper._vm self) cmd (a0 :: rest);
          attrs := attrs w |}) /\
    (forall w0 w1 w3,
        AgentHelper._ListEvaluations self ep env w0 = (Ok ev, w1) ->
        ex = uuid4 env ->
        AgentHelper._RunEvaluation self ev ex ep env w1 = (Ok tt, w) ->
        AgentHelper._GetExecutionStatus self ev ex ep env w = (Ok s, w3) ->
        (s = "FAILED" ->
         AgentHelper.VerifyEvaluationRun self env w0
         = (Raise (Exn EvaluationExecutionError
                     ["Execution=" ++ ex ++ " of Evaluation=" ++ ev
                      ++ " failed."]), w3)) /\
        (s <> "FAILED" ->
         AgentHelper.VerifyEvaluationRun self env w0 = (Ok tt, w3))).
Proof.
  intros env w self ev ex a0 rest s ep cmd Hlen Hset Hans. split.
  - rewrite agent_get_status. now apply get_status_settled.
  - intros w0 w1 w3 Hlist -> Hrun Hget.
    pose proof (@agent_verify_evaluation_steps self env w0 ev w1 w s w3
                  Hlist Hrun Hget) as H.
    split; intros Hs.
    + rewrite H. apply String.eqb_eq in Hs. now rewrite Hs.
    + rewrite H. apply String.eqb_neq in Hs. now rewrite Hs.
Qed.

(** Two RUNNING answers, then SUCCEEDED at the third request. *)
Lemma poller_returns_settled_state_example :
  let env := evaluation_env in
  let ep := "workloadmanager.googleapis.com" in
  let w1 := snd (AgentHelper._ListEvaluations windows_agent ep env empty_world) in
  let w2 := snd (AgentHelper._RunEvaluation windows_agent "eval-7" (uuid4 env)
                   ep env w1) in
  AgentHelper._GetExecutionStatus windows_agent "eval-7" (uuid4 env) ep env w2
  = (Ok "SUCCEEDED",
     {| trace := trace w2
                 ++ polling_events "vm-sql"
                      (get_execution_cmd ep "eval-7" (uuid4 env))
                      succeeds_third;
        attrs := attrs w2 |}) /\
  fst (AgentHelper.VerifyEvaluationRun windows_agent env empty_world) = Ok tt.
Proof.
  intros env ep w1 w2.
  destruct (@poller_returns_settled_state env w2 windows_agent "eval-7"
              (uuid4 env) (0%Z, state_json "RUNNING")
              [(0%Z, state_json "RUNNING"); (0%Z, state_json "SUCCEEDED")]
              "SUCCEEDED") as [Hget Hver].
  - simpl. lia.
  - simpl. repeat split; try reflexivity. discriminate.
  - exact (@scripted_answered [says evaluations_json; says "done"]
             succeeds_third no_files EmptyString _ _).
  - split; [exact Hget|].
    destruct (Hver empty_world w1 _ eq_refl eq_refl eq_refl Hget) as [_ Hok].
    rewrite Hok; [reflexivity | discriminate].
Defined.
Ltac run_call H :=
  rewrite ?run_on_vm;
  erewrite run_call_returned by (rewrite ?calls_ran; exact H).

Lemma run_call_failed {B} (k : Z * string * string -> M B)
    env w ch v cmd e :
  remote env (calls (trace w)) ch v cmd = Failed e ->
  bind (remote_call ch v cmd) k env w
  = (Raise e, record_event (Ran ch v cmd (Failed e)) w).
Proof. intros H. apply bind_raise. now apply remote_call_failed. Qed.

Lemma new_events_record1 w e1 :
  new_events w (record_event e1 w) = [e1].
Proof. unfold record_event. apply new_events_app. Qed.

Lemma new_events_record2 w e1 e2 :
  new_events w (record_event e2 (record_event e1 w)) = [e1; e2].
Proof.
  unfold record_event. cbn [trace attrs]. rewrite <- app_assoc.
  apply new_events_app.
Qed.

Lemma new_events_record3 w e1 e2 e3 :
  new_events w (record_event e3 (record_event e2 (record_event e1 w)))
  = [e1; e2; e3].
Proof.
  unfold record_event. cbn [trace attrs]. rewrite <- !app_assoc.
  apply new_events_app.
Qed.


(** ** Starting the service *)



(** ** Scanning the agent log *)






(** ** The load-test aggregator *)

Lemma int_col_cell row i z :
  Py.int (cell i row) = Some z -> int_col (Py.split "," row) i = Ok z.
Proof. unfold int_col, cell. now intros ->. Qed.

Lemma is_int_some s : is_int s = true -> exists z, Py.int s = Some z.
Proof. unfold is_int. destruct (Py.int s) as [z|]; [now exists z | discriminate]. Qed.

(** A well-formed row whose columns parse adds one sample to every list. *)
Lemma add_row_kept s row :
  well_formed row = true -> parses row = true ->
  add_row s row = Ok (append_samples s (samples_of [row])).
Proof.
  intros Hwf Hp. unfold add_row. fold (well_formed row). rewrite Hwf.
  cbn [negb]. unfold parses, used_columns in Hp. cbn [forallb] in Hp.
  repeat (apply andb_prop in Hp; destruct Hp as [?H Hp]).
  repeat match goal with
         | H : is_int (cell ?i row) = true |- _ =>
             apply is_int_some in H; destruct H as [?z H]
         end.
  unfold samples_of, column, append_samples. cbn [map].
  repeat match goal with
         | H : Py.int (cell ?i row) = Some ?z |- _ =>
             rewrite (int_col_cell _ _ H); rewrite H; clear H
         end.
  reflexivity.
Qed.

(** A row that is not well formed leaves the lists as they are. *)
Lemma add_row_skipped s row :
  well_formed row = false -> add_row s row = Ok s.
Proof. intros Hwf. unfold add_row. fold (well_formed row). now rewrite Hwf. Qed.

Lemma append_samples_assoc s t u :
  append_samples (append_samples s t) u = append_samples s (append_samples t u).
Proof. unfold append_samples. cbn. now rewrite <- !app_assoc. Qed.

Lemma append_samples_nil s : append_samples s (samples_of []) = s.
Proof. destruct s. unfold append_samples. cbn. now rewrite !app_nil_r. Qed.

Lemma samples_of_cons row rows :
  samples_of (row :: rows) = append_samples (samples_of [row]) (samples_of rows).
Proof. reflexivity. Qed.

(** The row loop gathers, for each column, the integers of the well-formed
    rows and nothing else. *)
Lemma collect_kept (rows : list string) :
  forall s,
    forallb parses (filter well_formed rows) = true ->
    collect rows s
    = Ok (append_samples s (samples_of (filter well_formed rows))).
Proof.
  induction rows as [|row rows IH]; intros s Hp; cbn [collect filter].
  - now rewrite append_samples_nil.
  - cbn [filter] in Hp. destruct (well_formed row) eqn:Hwf.
    + cbn [forallb] in Hp. apply andb_prop in Hp. destruct Hp as [Hrow Hp].
      rewrite (add_row_kept s _ Hwf Hrow). cbn [rbind].
      rewrite (IH _ Hp), append_samples_assoc. reflexivity.
    + rewrite (add_row_skipped s _ Hwf). cbn [rbind]. now apply IH.
Qed.







(** C9.  When the log was read and no row after the header is well formed,
    every sample list stays empty and [ProcessLoadTestResult] raises
    [ValueError] at the first rounding: no mean is recorded (the attributes
    keep their values) and the result file is not deleted.  A run that
    returns normally therefore had at least one well-formed row. *)
Theorem ProcessLoadTestResult_needs_a_row :
  forall env w (self : LoadtestHelper.t) agent_installed st out,
    remote env (calls (trace w)) PowerShell
      (LoadtestHelper._vm_sqlserver self) (LoadtestHelper.get_result_cmd self)
    = Returned st out EmptyString ->
    let run := LoadtestHelper.ProcessLoadTestResult self agent_installed
                 env w in
    (kept_rows out = [] ->
     collect (tl (Py.split "010" out)) no_samples = Ok no_samples /\
     fst run = Raise (Exn ValueError ["cannot convert float NaN to integer"]) /\
     attrs (snd run) = attrs w /\
     commands (new_events w (snd run)) = [LoadtestHelper.get_result_cmd self]) /\
    (fst run = Ok tt -> kept_rows out <> []).
Proof.
  intros env w self agent_installed st out Hget run.
  assert (Hempty :
            kept_rows out = [] ->
            collect (tl (Py.split "010" out)) no_samples = Ok no_samples /\
            run = (Raise (Exn ValueError
                            ["cannot convert float NaN to integer"]),
                   record_event
                     (Ran PowerShell (LoadtestHelper._vm_sqlserver self)
                        (LoadtestHelper.get_result_cmd self)
                        (Returned st out EmptyString)) w)).
  { intros Hrows.
    assert (Hcollect :
              collect (tl (Py.split "010" out)) no_samples = Ok no_samples).
    { rewrite collect_kept; unfold kept_rows in Hrows; rewrite Hrows;
        reflexivity. }
    split; [exact Hcollect|].
    unfold run, LoadtestHelper.ProcessLoadTestResult,
      LoadtestHelper._GetLoadTestResult,
      windows_test_utils.RunCommandOrRaiseOnFailure.
    cbv zeta. rewrite run_assoc. run_call Hget. cbn [Py.truthy].
    rewrite run_ret. cbv beta. rewrite Hcollect, run_lift_ok.
    reflexivity. }
  split.
  - intros Hrows. destruct (Hempty Hrows) as [Hcollect Hrun].
    rewrite Hrun. cbn [fst snd]. repeat split; try assumption.
    now rewrite new_events_record1.
  - intros Hok Hrows. destruct (Hempty Hrows) as [_ Hrun].
    rewrite Hrun in Hok. discriminate Hok.
Qed.

(** A log with only a header and a broken row. *)
Lemma ProcessLoadTestResult_needs_a_row_example :
  let run := LoadtestHelper.ProcessLoadTestResult loadtest_helper false
               (scripted [says rowless_log] no_files EmptyString)
               empty_world in
  fst run = Raise (Exn ValueError ["cannot convert float NaN to integer"]) /\
  attrs (snd run) = LoadtestHelper.zero_means /\
  commands (new_events empty_world (snd run))
  = ["Get-Content -Path C:\Windows\Temp\sqlPerf.log* -Encoding ascii"].
Proof.
  intros run.
  destruct (@ProcessLoadTestResult_needs_a_row
              (scripted [says rowless_log] no_files EmptyString) empty_world
              loadtest_helper false 0%Z rowless_log eq_refl) as [H _].
  destruct (H eq_refl) as (_ & Hr & Ha & Hc).
  repeat split; assumption.
Defined.

(** ** The load-test report *)




(** ** Filling in the password *)

Lemma fill_setups_verbatim (server pswd : string) :
  LoadtestHelper.fill_setups setups_template server pswd = setups_filled pswd.
Proof. reflexivity. Qed.

(** C3 (evaluated on the code).  [SetupHammerDB] puts the password into the
    script as it is: the first command it sends embeds the filled script in
    a PowerShell here-string, and the password stands there unchanged
    whatever characters it holds, with no backtick before a dollar sign.
    The escaping that [SetUpAgent] and the soak-test helper apply to their
    scripts is not applied here. *)
Theorem SetupHammerDB_password_verbatim :
  forall env w (self : LoadtestHelper.t),
    resource_file env
      (AGENT_FOR_SQL_SERVER_AGENT_DIR ++ "load_test/" ++ "setups.tcl")
    = Ok setups_template ->
    let pswd := secret_value env (LoadtestHelper._project_number self)
                  (LoadtestHelper._secret_name self) in
    exists rest,
      commands (new_events w (snd (LoadtestHelper.SetupHammerDB self env w)))
      = LoadtestHelper.save_file_cmd self "setups.tcl" (setups_filled pswd)
        :: rest.
Proof.
  intros env w self Hfile pswd.
  unfold LoadtestHelper.SetupHammerDB, bct_test_utils.ReadFileContent,
    bct_test_utils.GetSecretValue.
  cbv zeta. rewrite !run_assoc, run_ask. cbv beta.
  rewrite Hfile, run_lift_ok, run_ask. cbv beta.
  rewrite run_assoc, run_ask, run_ret. cbv beta.
  rewrite fill_setups_verbatim.
  unfold LoadtestHelper._RunTclScripts,
    LoadtestHelper._SaveFileToHammerDBFolder,
    windows_test_utils.RunCommandOrRaiseOnFailure.
  cbv zeta. rewrite run_assoc. fold pswd.
  unfold bind at 1. unfold remote_call at 1.
  destruct (remote env (calls (trace w)) PowerShell
              (LoadtestHelper._vm_hammerdb self)
              (LoadtestHelper.save_file_cmd self "setups.tcl"
                 (setups_filled pswd)))
    as [st out [|c err] | e].
  - cbn [Py.truthy]. rewrite run_ret. cbv beta.
    unfold bind, remote_call.
    destruct (remote env _ _ _ _) as [st2 out2 err2 | e2].
    + eexists.
      destruct (Py.truthy err2 || Py.contains "error" out2);
        cbn [snd raise ret]; rewrite new_events_record2; reflexivity.
    + eexists. cbn [snd]. rewrite new_events_record2. reflexivity.
  - cbn [Py.truthy]. rewrite run_raise. eexists. cbn [snd].
    rewrite new_events_record1. reflexivity.
  - eexists. cbn [snd]. rewrite new_events_record1. reflexivity.
Qed.

(** A password with two dollar signs reaches the command unescaped. *)
Lemma SetupHammerDB_password_verbatim_example :
  let secret := "pa$$w0rd" in
  exists rest,
    commands
      (new_events empty_world
         (snd (LoadtestHelper.SetupHammerDB loadtest_helper
                 (scripted [] (one_file setups_template) secret)
                 empty_world)))
    = ("Set-Content -Path 'C:\Program Files\HammerDB-4.9\setups.tcl' -Value @"
       ++ Py.dq ++ Py.nl
       ++ "dbset db mssqls" ++ Py.nl
       ++ "diset connection mssqls_pass pa$$w0rd" ++ Py.nl
       ++ "buildschema" ++ Py.nl
       ++ Py.nl ++ Py.dq ++ "@ -Encoding ascii")
      :: rest.
Proof.
  intros secret.
  exact (@SetupHammerDB_password_verbatim
           (scripted [] (one_file setups_template) secret) empty_world
           loadtest_helper eq_refl).
Defined.

(** ** Converting remote failures into exceptions *)





Section Converting.

Context {A B : Type} (d : discipline).











End Converting.
Lemma answers_weaken_text e ex :
  answers RaisesWithText e ex -> answers RaisesTyped e ex.
Proof. now intros [H _]. Qed.

Lemma converts_weaken_text {A} (r : result A) new :
  converts RaisesWithText r new -> converts RaisesTyped r new.
Proof.
  intros H. inversion H as [new' Hq | init ev ex Hq Hnq Hr Ha]; subst.
  - now apply converts_quiet.
  - apply converts_raise with (ex := ex); try assumption; try reflexivity.
    now apply answers_weaken_text.
Qed.

Lemma converting_weaken_text {A} (m : M A) :
  converting RaisesWithText m -> converting RaisesTyped m.
Proof.
  intros H env w. destruct (H env w) as (new & Ht & Hc).
  exists new. split; [exact Ht | now apply converts_weaken_text].
Qed.










Ltac unfold_agent :=
  unfold AgentHelper.InstallAgent, AgentHelper.StartService,
    AgentHelper.VerifyAgentRunning, AgentHelper.VerifyEvaluationRun,
    AgentHelper.UpdateConfiguration, AgentHelper.ReadConfiguration,
    AgentHelper._ServiceStatus, AgentHelper._StopService,
    AgentHelper._DeleteLogFile, AgentHelper._VerifyAgentInstallation,
    AgentHelper._ListEvaluations, AgentHelper._RunEvaluation,
    AgentHelper._GetExecutionStatus.

Ltac unfold_integration :=
  unfold IntegrationHelper.VerifyAgentRunning,
    IntegrationHelper.VerifyEvaluationRun,
    IntegrationHelper._ListEvaluations, IntegrationHelper._RunEvaluation,
    IntegrationHelper._GetExecutionStatus.

Ltac unfold_load :=
  unfold LoadtestHelper.SetupHammerDB, LoadtestHelper.RunSqlScripts,
    LoadtestHelper.StopBackgroundJob, LoadtestHelper.RunVirtualUsers,
    LoadtestHelper.ProcessLoadTestResult,
    LoadtestHelper._RunTclScripts, LoadtestHelper._SaveFileToHammerDBFolder,
    LoadtestHelper._GetLoadTestResult, LoadtestHelper._DeleteTestResult.





(** ** What the helpers send, and to whom *)

Section Emitting.

Context {A B : Type} (P : event -> Prop).

Lemma emitting_pure (r : result A) (m : M A) :
  (forall env w, m env w = (r, w)) -> emitting P m.
Proof.
  intros H env w. exists []. rewrite H. cbn [fst snd].
  split; [now rewrite app_nil_r | constructor].
Qed.

Lemma emitting_ret (a : A) : emitting P (ret a).
Proof. now apply emitting_pure with (r := Ok a). Qed.

Lemma emitting_raise (e : exn) : emitting P (@raise A e).
Proof. now apply emitting_pure with (r := Raise e). Qed.

Lemma emitting_lift (r : result A) : emitting P (lift r).
Proof. now apply emitting_pure with (r := r). Qed.

Lemma emitting_bind (m : M A) (k : A -> M B) :
  emitting P m -> (forall a, emitting P (k a)) -> emitting P (bind m k).
Proof.
  intros Hm Hk env w. destruct (Hm env w) as (new1 & Ht1 & Hp1).
  unfold bind. destruct (m env w) as [[a|e] w1]; cbn [fst snd] in *.
  - destruct (Hk a env w1) as (new2 & Ht2 & Hp2).
    exists (new1 ++ new2)%list. split.
    + now rewrite Ht2, Ht1, app_assoc.
    + now apply Forall_app.
  - exists new1. now split.
Qed.

Lemma emitting_ask (k : Env -> M B) :
  (forall env, emitting P (k env)) -> emitting P (bind ask k).
Proof. intros Hk env w. exact (Hk env env w). Qed.

Lemma emitting_get_attrs (k : Means -> M B) :
  (forall a, emitting P (k a)) -> emitting P (bind get_attrs k).
Proof. intros Hk env w. exact (Hk (attrs w) env w). Qed.

Lemma emitting_set_attrs (a : Means) (k : unit -> M B) :
  emitting P (k tt) -> emitting P (bind (set_attrs a) k).
Proof.
  intros Hk env w.
  destruct (Hk env {| trace := trace w; attrs := a |}) as (new & Ht & Hp).
  exists new. now split.
Qed.

Lemma emitting_event (e : event) (k : M B) w env :
  P e ->
  (exists new, trace (snd (k env (record_event e w)))
               = (trace (record_event e w) ++ new)%list /\ Forall P new) ->
  exists new, trace (snd (k env (record_event e w)))
              = (trace w ++ new)%list /\ Forall P new.
Proof.
  intros He (new & Ht & Hp). exists (e :: new). split.
  - rewrite Ht. cbn [trace record_event]. now rewrite <- app_assoc.
  - now constructor.
Qed.

Lemma emitting_sleep (n : Z) (k : unit -> M B) :
  P (Slept n) -> emitting P (k tt) -> emitting P (bind (sleep n) k).
Proof.
  intros Hs Hk env w.
  change (bind (sleep n) k env w) with (k tt env (record_event (Slept n) w)).
  apply emitting_event; [exact Hs | apply Hk].
Qed.

Lemma emitting_call ch v cmd (k : Z * string * string -> M B) :
  (forall o, P (Ran ch v cmd o)) ->
  (forall x, emitting P (k x)) ->
  emitting P (bind (remote_call ch v cmd) k).
Proof.
  intros Hc Hk env w. unfold bind, remote_call.
  destruct (remote env (calls (trace w)) ch v cmd) as [st out err | e].
  - apply emitting_event; [apply Hc | apply Hk].
  - exists [Ran ch v cmd (Failed e)]. cbn [fst snd trace record_event].
    split; [reflexivity | repeat constructor; apply Hc].
Qed.

Lemma emitting_ret_bind (a : A) (k : A -> M B) :
  emitting P (k a) -> emitting P (bind (ret a) k).
Proof. intros Hk env w. exact (Hk env w). Qed.

End Emitting.

Ltac emitting_step :=
  lazymatch goal with
  | |- emitting _ (ret _) => apply emitting_ret
  | |- emitting _ (raise _) => apply emitting_raise
  | |- emitting _ (lift _) => apply emitting_lift
  | |- emitting _ (bind (ret _) _) => apply emitting_ret_bind
  | |- emitting _ (bind ask _) => apply emitting_ask; intros ?
  | |- emitting _ (bind get_attrs _) => apply emitting_get_attrs; intros ?
  | |- emitting _ (bind (set_attrs _) _) => apply emitting_set_attrs
  | |- emitting _ (bind (sleep _) _) => apply emitting_sleep; [exact I|]
  | |- emitting _ (bind (remote_call _ _ _) _) =>
      apply emitting_call; [intros ?; reflexivity | intros [[? ?] ?]]
  | |- emitting _ (bind _ _) => apply emitting_bind; [ | intros ? ]
  | |- emitting _ (if ?b then _ else _) => destruct b
  | |- emitting _ (match ?x with _ => _ end) => destruct x
  | |- emitting _ (let _ := _ in _) => cbv zeta
  end.

Lemma poll_emitting (P : event -> Prop) v cmd n :
  P (Slept 60) -> (forall o, P (Ran PowerShell v cmd o)) ->
  forall out, emitting P (poll v cmd n out).
Proof.
  intros Hs Hc. induction n as [|n IH]; intros out; cbn [poll].
  - apply emitting_ret.
  - apply emitting_ask; intros env. apply emitting_bind;
      [apply emitting_lift | intros state].
    destruct (String.eqb state "RUNNING"); [|apply emitting_ret].
    apply emitting_sleep; [exact Hs|].
    apply emitting_call; [exact Hc | intros [[st out'] [|c err]]].
    + apply IH.
    + apply emitting_raise.
Qed.

Ltac unfold_utils :=
  unfold bct_test_utils.RunCommandOnVm, bct_test_utils.ReadFileContent,
    bct_test_utils.GetSecretValue, bct_test_utils.GetCurrentUser,
    windows_test_utils.RunCommandOrRaiseOnFailure, void;
  cbn [negb].

Ltac emitting_auto :=
  unfold_utils;
  repeat first
    [ apply poll_emitting; [exact I | intros ?; reflexivity]
    | emitting_step ].

(** X1.  No helper method uses the direct shell runner: every remote command
    of every method, also those meant for the Linux machines, goes through
    the PowerShell runner of the framework. *)
Theorem helpers_use_powershell_only :
  forall c : call, emitting over_powershell (run_call c).
Proof.
  intros c. destruct c; cbn [run_call];
    unfold_agent; unfold_integration; unfold_load;
    unfold AgentHelper.AddRepo, IntegrationHelper.SetUpAgent,
      IntegrationHelper.setup_cmd,
      SoakTestHelper.RunUploadLogFileScript, SoakTestHelper.upload_cmd,
      LoadtestHelper.UploadLoadTestResultToBucket;
    solve [emitting_auto].
Qed.

Lemma integration_setup_sent_to h id cfg :
  emitting (sent_to (IntegrationHelper.vm_agent h id))
    (IntegrationHelper.SetUpAgent h id cfg).
Proof.
  unfold IntegrationHelper.SetUpAgent, IntegrationHelper.setup_cmd.
  emitting_auto.
Qed.

Lemma integration_verify_sent_to h id :
  emitting (sent_to (IntegrationHelper.vm_agent h id))
    (IntegrationHelper.VerifyAgentRunning h id).
Proof. unfold IntegrationHelper.VerifyAgentRunning. emitting_auto. Qed.

(** X2.  Whatever the target id, every command of [_runAgentAndVerify] (the
    setup and the log read) and of the soak helper's upload goes to one
    control host: the remote Windows machine when the id is 1, the local
    Windows machine for every other id; the Linux machines are never
    addressed. *)
Theorem integration_commands_go_to_control_host :
  forall (h : IntegrationHelper.t) (id : Z) (cfg : string),
    emitting (sent_to (IntegrationHelper.vm_agent h id))
      (IntegrationTest._runAgentAndVerify h id cfg) /\
    emitting (sent_to (IntegrationHelper.vm_agent h id))
      (SoakTestHelper.RunUploadLogFileScript
         {| SoakTestHelper.vm_win_local := IntegrationHelper._vm_win_local h;
            SoakTestHelper.vm_win_remote := IntegrationHelper._vm_win_remote h;
            SoakTestHelper.vm_rhel := IntegrationHelper._vm_rhel h;
            SoakTestHelper.vm_suse := IntegrationHelper._vm_suse h |} id) /\
    IntegrationHelper.vm_agent h id
    = (if (id =? 1)%Z then IntegrationHelper._vm_win_remote h
       else IntegrationHelper._vm_win_local h).
Proof.
  intros h id cfg. repeat split.
  - unfold IntegrationTest._runAgentAndVerify. apply emitting_bind.
    + apply integration_setup_sent_to.
    + intros _. apply integration_verify_sent_to.
  - unfold SoakTestHelper.RunUploadLogFileScript, SoakTestHelper.upload_cmd,
      IntegrationHelper.vm_agent.
    cbn [SoakTestHelper.vm_win_local SoakTestHelper.vm_win_remote
         SoakTestHelper.vm_rhel SoakTestHelper.vm_suse].
    emitting_auto.
Qed.

(** X3.  An agent helper built with [windows = False] has no commands of
    its own: every lifecycle method sends the empty string as its
    command. *)
Theorem agent_without_windows_sends_nothing :
  forall (h : AgentHelper.t) cfg ev ex ep,
    AgentHelper._windows h = false ->
    Forall (fun c => emitting sends_nothing (run_call c))
      [Agent_AddRepo h; Agent_InstallAgent h; Agent_UpdateConfiguration h cfg;
       Agent_ReadConfiguration h; Agent_StartService h;
       Agent_VerifyAgentRunning h; Agent_ServiceStatus h; Agent_StopService h;
       Agent_DeleteLogFile h; Agent_VerifyAgentInstallation h;
       Agent_RunEvaluation h ev ex ep; Agent_GetExecutionStatus h ev ex ep].
Proof.
  intros [v win repo bucket path] cfg ev ex ep Hwin.
  cbn [AgentHelper._windows] in Hwin. subst win.
  repeat (apply Forall_cons; [|]); [..|apply Forall_nil]; cbn [run_call];
    unfold_agent;
    unfold AgentHelper.AddRepo, AgentHelper.service_status_cmd,
      AgentHelper.stop_service_cmd, AgentHelper.delete_log_cmd,
      AgentHelper.start_service_cmd, AgentHelper.read_log_cmd;
    cbn [AgentHelper._windows AgentHelper._vm andb];
    solve [emitting_auto].
Qed.

(** ** Bounds on polling and on the keep-alive loop *)

Lemma slept_seconds_app tr1 tr2 :
  slept_seconds (tr1 ++ tr2) = (slept_seconds tr1 + slept_seconds tr2)%Z.
Proof.
  induction tr1 as [|[ch v cmd o|n] tr1 IH]; cbn [app slept_seconds];
    rewrite ?IH; lia.
Qed.

Ltac count_events :=
  unfold calls in *;
  cbn [filter is_call List.length app slept_seconds] in *.

(** [n] turns of the loop cost at most [n] requests and [n] minutes. *)
Lemma poll_bounded v cmd n :
  forall out env w,
    exists new,
      trace (snd (poll v cmd n out env w)) = (trace w ++ new)%list /\
      (calls new <= n)%nat /\
      (slept_seconds new <= 60 * Z.of_nat n)%Z.
Proof.
  induction n as [|n IH]; intros out env w.
  - exists []. cbn [poll ret snd]. rewrite app_nil_r.
    count_events. repeat split; first [reflexivity | lia].
  - cbn [poll]. rewrite run_ask.
    destruct (json_state env out) as [state|e].
    2:{ rewrite run_lift_raise. exists []. cbn [snd]. rewrite app_nil_r.
        count_events. repeat split; first [reflexivity | lia]. }
    rewrite run_lift_ok.
    destruct (String.eqb state "RUNNING").
    2:{ exists []. cbn [ret snd]. rewrite app_nil_r.
        count_events. repeat split; first [reflexivity | lia]. }
    rewrite run_sleep, run_on_vm. unfold bind, remote_call.
    destruct (remote env _ PowerShell v cmd) as [st out' [|c err] | e].
    + cbn [Py.truthy].
      match goal with
      | |- context [poll v cmd n out' env ?w1] =>
          destruct (IH out' env w1) as (new & Ht & Hc & Hs)
      end.
      eexists (Slept 60 :: Ran PowerShell v cmd _ :: new). split.
      * rewrite Ht. cbn [trace record_event]. now rewrite <- !app_assoc.
      * count_events. repeat split; first [reflexivity | lia].
    + cbn [Py.truthy raise snd].
      eexists [Slept 60; Ran PowerShell v cmd _]. split.
      * cbn [trace record_event]. now rewrite <- !app_assoc.
      * count_events. repeat split; first [reflexivity | lia].
    + eexists [Slept 60; Ran PowerShell v cmd _]. split.
      * cbn [snd trace record_event]. now rewrite <- !app_assoc.
      * count_events. repeat split; first [reflexivity | lia].
Qed.

Lemma get_status_bounded v cmd env w :
  exists new,
    trace (snd (get_status v cmd env w)) = (trace w ++ new)%list /\
    (calls new <= 11)%nat /\ (slept_seconds new <= 600)%Z.
Proof.
  unfold get_status. rewrite run_on_vm. unfold bind, remote_call.
  destruct (remote env _ PowerShell v cmd) as [st out [|c err] | e].
  - cbn [Py.truthy].
    match goal with
    | |- context [poll v cmd 10 out env ?w1] =>
        destruct (@poll_bounded v cmd 10 out env w1) as (new & Ht & Hc & Hs)
    end.
    eexists (Ran PowerShell v cmd _ :: new). split.
    + rewrite Ht. cbn [trace record_event]. now rewrite <- !app_assoc.
    + count_events. repeat split; first [reflexivity | lia].
  - eexists [Ran PowerShell v cmd _]. cbn [Py.truthy raise snd]. split.
    + reflexivity.
    + count_events. repeat split; first [reflexivity | lia].
  - eexists [Ran PowerShell v cmd _]. cbn [snd]. split.
    + reflexivity.
    + count_events. repeat split; first [reflexivity | lia].
Qed.

Lemma new_events_exact w w' new :
  trace w' = (trace w ++ new)%list -> new_events w w' = new.
Proof.
  intros H. unfold new_events. rewrite H, skipn_app, skipn_all, Nat.sub_diag.
  reflexivity.
Qed.

(** X4.  Whatever the remote host answers, [_GetExecutionStatus] sends at
    most eleven status requests and sleeps at most ten minutes in total, in
    both helpers. *)
Theorem GetExecutionStatus_is_bounded :
  forall env w (agent : AgentHelper.t) (integration : IntegrationHelper.t)
         ev ex ep,
    let polled_a := new_events w (snd (AgentHelper._GetExecutionStatus agent
                                         ev ex ep env w)) in
    let polled_i := new_events w (snd (IntegrationHelper._GetExecutionStatus
                                         integration ev ex ep env w)) in
    ((calls polled_a <= 11)%nat /\ (slept_seconds polled_a <= 600)%Z) /\
    ((calls polled_i <= 11)%nat /\ (slept_seconds polled_i <= 600)%Z).
Proof.
  intros env w agent integration ev ex ep polled_a polled_i. split.
  - subst polled_a. rewrite agent_get_status.
    destruct (get_status_bounded (AgentHelper._vm agent)
                (if AgentHelper._windows agent
                 then get_execution_cmd ep ev ex else EmptyString) env w)
      as (new & Ht & Hb).
    now rewrite (@new_events_exact _ _ _ Ht).
  - subst polled_i. rewrite integration_get_status.
    destruct (get_status_bounded
                (IntegrationHelper._vm_win_local integration)
                (get_execution_cmd ep ev ex) env w) as (new & Ht & Hb).
    now rewrite (@new_events_exact _ _ _ Ht).
Qed.

Lemma world_eta (w : World) : {| trace := trace w; attrs := attrs w |} = w.
Proof. now destruct w. Qed.

Lemma repeat_sleep_run (s : Z) (n : nat) env w :
  repeat_m n (sleep s) env w
  = (Ok tt, {| trace := trace w ++ repeat (Slept s) n; attrs := attrs w |}).
Proof.
  revert w. induction n as [|n IH]; intros w; cbn [repeat_m repeat].
  - unfold ret. now rewrite app_nil_r, world_eta.
  - rewrite run_sleep, IH. cbn [trace attrs record_event].
    now rewrite <- app_assoc.
Qed.

Lemma repeat_repeat_sleep_run (s : Z) (a b : nat) env w :
  repeat_m a (repeat_m b (sleep s)) env w
  = (Ok tt,
     {| trace := trace w ++ repeat (Slept s) (a * b); attrs := attrs w |}).
Proof.
  revert w. induction a as [|a IH]; intros w; cbn [repeat_m].
  - unfold ret. cbn [Nat.mul repeat]. now rewrite app_nil_r, world_eta.
  - unfold bind at 1. rewrite repeat_sleep_run, IH.
    cbn [trace attrs Nat.mul]. now rewrite repeat_app, <- app_assoc.
Qed.

Lemma slept_seconds_repeat (s : Z) (n : nat) :
  slept_seconds (repeat (Slept s) n) = (s * Z.of_nat n)%Z.
Proof.
  induction n as [|n IH]; cbn [repeat slept_seconds]; [lia|].
  rewrite IH. lia.
Qed.

(** With its files at hand and a framework that does not raise, [SetUpAgent]
    sends one command to the control host and returns, whatever the command
    answers. *)
Lemma setup_runs env (h : IntegrationHelper.t) id cfg w :
  files_present env -> always_returns env ->
  exists cmd st out err,
    IntegrationHelper.SetUpAgent h id cfg env w
    = (Ok tt,
       record_event
         (Ran PowerShell (IntegrationHelper.vm_agent h id) cmd
            (Returned st out err)) w).
Proof.
  intros Hfiles Hret.
  unfold IntegrationHelper.SetUpAgent, IntegrationHelper.setup_cmd,
    bct_test_utils.ReadFileContent.
  rewrite run_assoc, run_ask.
  match goal with
  | |- context [resource_file env ?p] =>
      destruct (Hfiles p) as [config Hconfig]; rewrite Hconfig
  end.
  rewrite run_lift_ok. cbv beta.
  destruct (IntegrationHelper.is_windows_id id).
  - rewrite !run_assoc, run_ask.
    match goal with
    | |- context [resource_file env ?p] =>
        destruct (Hfiles p) as [script Hscript]; rewrite Hscript
    end.
    rewrite run_lift_ok, run_ret. cbv beta. rewrite run_on_vm.
    match goal with
    | |- context [remote_call PowerShell ?v ?c] =>
        destruct (Hret (calls (trace w)) PowerShell v c)
          as (st & out & err & Hcall);
        exists c, st, out, err
    end.
    now erewrite run_call_returned by exact Hcall.
  - rewrite !run_assoc, run_ask. cbv beta.
    destruct (id =? VM_ID_RHEL)%Z;
      rewrite !run_assoc, run_ask;
      match goal with
      | |- context [resource_file env ?p] =>
          destruct (Hfiles p) as [script Hscript]; rewrite Hscript
      end;
      rewrite run_lift_ok, run_ret; cbv beta; rewrite run_on_vm;
      match goal with
      | |- context [remote_call PowerShell ?v ?c] =>
          destruct (Hret (calls (trace w)) PowerShell v c)
            as (st & out & err & Hcall);
          exists c, st, out, err
      end;
      now erewrite run_call_returned by exact Hcall.
Qed.

(** X5.  When the resource files can be read and the framework does not
    raise, [testSoakTest] sends four setup commands (to the local, remote,
    local and local Windows machines, whatever they answer) and then sleeps
    240 times one hour, ten days in all, before it returns. *)
Theorem soak_test_keeps_alive_ten_days :
  forall env w (h : IntegrationHelper.t),
    files_present env -> always_returns env ->
    let run := SoakTest.testSoakTest h env w in
    exists setups,
      fst run = Ok tt /\
      new_events w (snd run) = (setups ++ repeat (Slept 3600) 240)%list /\
      hosts setups
      = [IntegrationHelper._vm_win_local h; IntegrationHelper._vm_win_remote h;
         IntegrationHelper._vm_win_local h; IntegrationHelper._vm_win_local h] /\
      calls setups = 4 /\
      slept_seconds (new_events w (snd run)) = (10 * 24 * 3600)%Z.
Proof.
  intros env w h Hfiles Hret run. subst run.
  unfold SoakTest.testSoakTest.
  destruct (@setup_runs env h VM_ID_WIN_LOCAL "local.json" w Hfiles Hret)
    as (c1 & st1 & o1 & e1 & H1).
  rewrite (@bind_ok _ _ _ _ _ _ _ _ H1).
  match goal with |- context [bind _ _ env ?w1] =>
    destruct (@setup_runs env h VM_ID_WIN_REMOTE "remote-soak.json" w1
                Hfiles Hret) as (c2 & st2 & o2 & e2 & H2) end.
  rewrite (@bind_ok _ _ _ _ _ _ _ _ H2).
  match goal with |- context [bind _ _ env ?w1] =>
    destruct (@setup_runs env h VM_ID_RHEL "local.json" w1
                Hfiles Hret) as (c3 & st3 & o3 & e3 & H3) end.
  rewrite (@bind_ok _ _ _ _ _ _ _ _ H3).
  match goal with |- context [bind _ _ env ?w1] =>
    destruct (@setup_runs env h VM_ID_SUSE "local.json" w1
                Hfiles Hret) as (c4 & st4 & o4 & e4 & H4) end.
  rewrite (@bind_ok _ _ _ _ _ _ _ _ H4).
  rewrite repeat_repeat_sleep_run. cbn [fst snd].
  eexists [_; _; _; _]. split; [reflexivity|]. split.
  - apply new_events_exact. cbn [trace attrs record_event].
    rewrite <- !app_assoc. reflexivity.
  - split; [reflexivity|]. split; [reflexivity|].
    erewrite new_events_exact.
    2:{ cbn [trace attrs record_event]. rewrite <- !app_assoc. reflexivity. }
    cbn [app slept_seconds]. now rewrite slept_seconds_repeat.
Qed.

Lemma agent_without_windows_sends_nothing_example :
  Forall (fun c => emitting sends_nothing (run_call c))
    [Agent_AddRepo linux_agent; Agent_InstallAgent linux_agent;
     Agent_UpdateConfiguration linux_agent "local.json";
     Agent_ReadConfiguration linux_agent; Agent_StartService linux_agent;
     Agent_VerifyAgentRunning linux_agent; Agent_ServiceStatus linux_agent;
     Agent_StopService linux_agent; Agent_DeleteLogFile linux_agent;
     Agent_VerifyAgentInstallation linux_agent;
     Agent_RunEvaluation linux_agent "e1" "x1" "host";
     Agent_GetExecutionStatus linux_agent "e1" "x1" "host"].
Proof.
  exact (@agent_without_windows_sends_nothing linux_agent "local.json" "e1"
           "x1" "host" eq_refl).
Defined.

Lemma plain_env_files : files_present plain_env.
Proof. intros name. now exists "echo ok". Qed.

Lemma plain_env_returns : always_returns plain_env.
Proof.
  intros n ch v cmd. exists 0%Z, EmptyString, EmptyString.
  cbn [remote plain_env scripted]. now destruct n.
Qed.

Lemma soak_test_keeps_alive_ten_days_example :
  let run := SoakTest.testSoakTest integration_helper plain_env empty_world in
  fst run = Ok tt /\
  slept_seconds (new_events empty_world (snd run)) = 864000%Z.
Proof.
  intros run.
  destruct (@soak_test_keeps_alive_ten_days plain_env empty_world
              integration_helper plain_env_files plain_env_returns)
    as (setups & Hok & _ & _ & _ & Hs).
  split; [exact Hok | exact Hs].
Defined.

(** ** Edge cases of the lifecycle methods *)

(** X6.  On a Windows host, [AddRepo] with a repo version that is neither
    google3 nor a key of its [repos] dictionary (the flag's default, none,
    is such a value) raises [KeyError] before any command is sent. *)
Theorem AddRepo_unknown_version :
  forall env w (h : AgentHelper.t),
    AgentHelper._windows h = true ->
    AgentHelper._repo_version h <> "google3" ->
    AgentHelper._repo_version h <> "unstable" ->
    AgentHelper._repo_version h <> "stable" ->
    AgentHelper.AddRepo h env w
    = (Raise (Exn KeyError [AgentHelper._repo_version h]), w).
Proof.
  intros env w h Hwin Hg Hu Hs.
  apply String.eqb_neq in Hg, Hu, Hs.
  unfold AgentHelper.AddRepo, AgentHelper.repos.
  rewrite Hwin, Hg, Hu, Hs. cbn [andb].
  now rewrite !run_assoc, run_lift_raise.
Qed.

Lemma AddRepo_unknown_version_example :
  let h := {| AgentHelper._vm := "vm-sql";
              AgentHelper._windows := true;
              AgentHelper._repo_version := "none";
              AgentHelper._gce_bucket := "sql-server-agent-integration";
              AgentHelper._g3_file_path := "gs://bucket/agent.exe" |} in
  AgentHelper.AddRepo h plain_env empty_world
  = (Raise (Exn KeyError ["none"]), empty_world).
Proof.
  intros h.
  apply (@AddRepo_unknown_version plain_env empty_world h eq_refl);
    discriminate.
Defined.

(** X7.  On the google3 path [AddRepo] sends the one gsutil copy command and
    returns normally whatever the command wrote to stderr. *)
Theorem AddRepo_google3_ignores_stderr :
  forall env w (h : AgentHelper.t) st out err,
    AgentHelper._windows h = true ->
    AgentHelper._repo_version h = "google3" ->
    let cmd := "gsutil cp " ++ AgentHelper._g3_file_path h ++ " "
               ++ SQL_SERVER_AGENT_EXE_PATH in
    remote env (calls (trace w)) PowerShell (AgentHelper._vm h) cmd
    = Returned st out err ->
    AgentHelper.AddRepo h env w
    = (Ok tt,
       record_event
         (Ran PowerShell (AgentHelper._vm h) cmd (Returned st out err)) w).
Proof.
  intros env w h st out err Hwin Hrepo cmd Hcall.
  unfold AgentHelper.AddRepo. rewrite Hwin, Hrepo, String.eqb_refl.
  cbn [andb]. cbv zeta. fold cmd.
  run_call Hcall. reflexivity.
Qed.


Lemma AddRepo_google3_ignores_stderr_example :
  let h := {| AgentHelper._vm := "vm-sql";
              AgentHelper._windows := true;
              AgentHelper._repo_version := "google3";
              AgentHelper._gce_bucket := "sql-server-agent-integration";
              AgentHelper._g3_file_path := "gs://bucket/agent.exe" |} in
  fst (AgentHelper.AddRepo h
         (scripted [Returned 1 EmptyString "Copying file..."] no_files
            EmptyString) empty_world) = Ok tt.
Proof.
  intros h.
  now rewrite (@AddRepo_google3_ignores_stderr
                 (scripted [Returned 1 EmptyString "Copying file..."] no_files
                    EmptyString) empty_world h 1%Z EmptyString
                 "Copying file..." eq_refl eq_refl eq_refl).
Defined.


(** ** Targets, files and the verdict of the integration test *)

(** X9.  A target id other than 0, 1 and 2 is handled as the SUSE machine
    (id 3): [SetUpAgent] and [VerifyAgentRunning] do for it exactly what
    they do for SUSE; the id is never validated. *)
Theorem unknown_target_is_suse :
  forall (h : IntegrationHelper.t) (id : Z) (cfg : string),
    id <> VM_ID_WIN_LOCAL -> id <> VM_ID_WIN_REMOTE -> id <> VM_ID_RHEL ->
    IntegrationHelper.SetUpAgent h id cfg
    = IntegrationHelper.SetUpAgent h VM_ID_SUSE cfg /\
    IntegrationHelper.VerifyAgentRunning h id
    = IntegrationHelper.VerifyAgentRunning h VM_ID_SUSE.
Proof.
  intros h id cfg H0 H1 H2.
  apply Z.eqb_neq in H0, H1, H2.
  unfold IntegrationHelper.SetUpAgent, IntegrationHelper.VerifyAgentRunning,
    IntegrationHelper.setup_cmd, IntegrationHelper.read_log_cmd,
    IntegrationHelper.vm_agent, IntegrationHelper.is_windows_id.
  rewrite H0, H1, H2. split; reflexivity.
Qed.

Lemma unknown_target_is_suse_example :
  IntegrationHelper.SetUpAgent integration_helper 7 "local.json"
  = IntegrationHelper.SetUpAgent integration_helper VM_ID_SUSE "local.json" /\
  IntegrationHelper.VerifyAgentRunning integration_helper 7
  = IntegrationHelper.VerifyAgentRunning integration_helper VM_ID_SUSE.
Proof.
  apply (@unknown_target_is_suse integration_helper 7%Z "local.json");
    discriminate.
Defined.

(** X10.  When the configuration file or the setup script cannot be read,
    [SetUpAgent] raises the error of the read and sends no command. *)
Theorem SetUpAgent_missing_file :
  forall env w (h : IntegrationHelper.t) id cfg e,
    let config_path :=
      AGENT_FOR_SQL_SERVER_AGENT_DIR ++ "configurations/" ++ cfg in
    let script_path :=
      if IntegrationHelper.is_windows_id id
      then AGENT_FOR_SQL_SERVER_AGENT_DIR ++ "scripts/agent-setup-win.ps1"
      else if (id =? VM_ID_RHEL)%Z
           then AGENT_FOR_SQL_SERVER_AGENT_DIR ++ "scripts/"
                ++ "agent-setup-rhel.sh"
           else AGENT_FOR_SQL_SERVER_AGENT_DIR ++ "scripts/"
                ++ "agent-setup-suse.sh" in
    resource_file env config_path = Raise e \/
    ((exists config, resource_file env config_path = Ok config) /\
     resource_file env script_path = Raise e) ->
    IntegrationHelper.SetUpAgent h id cfg env w = (Raise e, w).
Proof.
  intros env w h id cfg e config_path script_path
         [Hconfig | [[config Hconfig] Hscript]];
    unfold IntegrationHelper.SetUpAgent, bct_test_utils.ReadFileContent;
    rewrite run_assoc, run_ask; fold config_path; rewrite Hconfig.
  - now rewrite run_lift_raise.
  - rewrite run_lift_ok. cbv beta.
    unfold IntegrationHelper.setup_cmd, bct_test_utils.ReadFileContent.
    subst script_path.
    destruct (IntegrationHelper.is_windows_id id).
    + rewrite !run_assoc, run_ask, Hscript. now rewrite run_lift_raise.
    + rewrite !run_assoc, run_ask. cbv beta.
      destruct (id =? VM_ID_RHEL)%Z;
        rewrite !run_assoc, run_ask, Hscript; now rewrite run_lift_raise.
Qed.

Lemma SetUpAgent_missing_file_example :
  IntegrationHelper.SetUpAgent integration_helper VM_ID_RHEL "absent.json"
    (scripted [] no_files EmptyString) empty_world
  = (Raise (Exn FileNotFoundError
              ["google3/third_party/sqlserveragent/automated_tests/configurations/absent.json"]),
     empty_world).
Proof.
  apply (@SetUpAgent_missing_file (scripted [] no_files EmptyString)
           empty_world integration_helper VM_ID_RHEL "absent.json").
  left. reflexivity.
Defined.

(** X11.  Once the script file is saved, [_RunTclScripts] returns normally
    exactly when the run wrote nothing to stderr and its output does not
    contain the word error; otherwise it raises [HammerDbSetupError] with
    its fixed message. *)
Theorem RunTclScripts_verdict :
  forall env w (h : LoadtestHelper.t) file_name file_content
         st1 out1 st out err,
    let save := LoadtestHelper.save_file_cmd h file_name file_content in
    let run := "cd '" ++ LoadtestHelper._hammerdb_path h
               ++ "' ; .\hammerdbcli tcl auto" ++ " ." ++ Py.bs ++ file_name in
    remote env (calls (trace w)) PowerShell (LoadtestHelper._vm_hammerdb h)
      save = Returned st1 out1 EmptyString ->
    remote env (S (calls (trace w))) PowerShell
      (LoadtestHelper._vm_hammerdb h) run = Returned st out err ->
    fst (LoadtestHelper._RunTclScripts h file_name file_content env w)
    = if Py.truthy err || Py.contains "error" out
      then Raise (Exn HammerDbSetupError ["Error found while hammerdb setups"])
      else Ok tt.
Proof.
  intros env w h file_name file_content st1 out1 st out err save run
         Hsave Hrun.
  unfold LoadtestHelper._RunTclScripts,
    LoadtestHelper._SaveFileToHammerDBFolder,
    windows_test_utils.RunCommandOrRaiseOnFailure.
  cbv zeta. rewrite run_assoc. fold save. run_call Hsave.
  cbn [Py.truthy]. rewrite run_ret. cbv beta. fold run. run_call Hrun.
  now destruct (Py.truthy err || Py.contains "error" out).
Qed.

Lemma RunTclScripts_verdict_example :
  fst (LoadtestHelper._RunTclScripts loadtest_helper "virtualusers.tcl"
         "vurun"
         (scripted [says EmptyString; says "Vuser 1: finished, 0 errors"]
            no_files EmptyString) empty_world)
  = Raise (Exn HammerDbSetupError ["Error found while hammerdb setups"]).
Proof.
  exact (@RunTclScripts_verdict
           (scripted [says EmptyString; says "Vuser 1: finished, 0 errors"]
              no_files EmptyString) empty_world loadtest_helper
           "virtualusers.tcl" "vurun" 0%Z EmptyString 0%Z
           "Vuser 1: finished, 0 errors" EmptyString eq_refl eq_refl).
Defined.



(** ** Escaping the scripts *)





(** ** The evaluation id *)

Lemma split_not_nil sep s : Py.split sep s <> [].
Proof.
  destruct s as [|c s]; cbn [Py.split]; [discriminate|].
  destruct (Ascii.eqb c sep); [discriminate|].
  destruct (Py.split sep s); discriminate.
Qed.

(** Joining the fields of a split gives the text back. *)
Lemma rejoin_split sep s : rejoin sep (Py.split sep s) = s.
Proof.
  induction s as [|c s IH]; [reflexivity|]. cbn [Py.split].
  destruct (Ascii.eqb c sep) eqn:Hc.
  - apply Ascii.eqb_eq in Hc. subst c.
    pose proof (split_not_nil sep s) as Hne.
    cbn [rejoin]. destruct (Py.split sep s) as [|f fs]; [now elim Hne|].
    rewrite IH. reflexivity.
  - destruct (Py.split sep s) as [|f fs] eqn:Hs.
    + now elim (split_not_nil sep s).
    + cbn [rejoin] in *. destruct fs; rewrite <- IH; reflexivity.
Qed.

(** No field of a split holds the separator. *)
Lemma split_fields_free sep s :
  Forall (fun f => free_of sep f = true) (Py.split sep s).
Proof.
  induction s as [|c s IH]; cbn [Py.split].
  - repeat constructor.
  - destruct (Ascii.eqb c sep) eqn:Hc.
    + constructor; [reflexivity | exact IH].
    + destruct (Py.split sep s) as [|f fs].
      * repeat constructor. cbn [free_of]. now rewrite Hc.
      * inversion IH as [|? ? Hf Hfs]; subst. constructor; [|exact Hfs].
        cbn [free_of]. now rewrite Hc.
Qed.

Lemma closed_by_app c p q :
  closed_by c (p ++ String c q) = closed_by c (String c q).
Proof.
  induction p as [|x p IH]; [reflexivity|].
  cbn [append]. destruct (p ++ String c q) as [|a s] eqn:E.
  - destruct p; discriminate E.
  - change (closed_by c (String x (String a s)))
      with (closed_by c (String a s)).
    exact IH.
Qed.

(** The last field of a split: the text is a prefix, empty or closed by the
    separator, followed by that field. *)
Lemma rejoin_last sep init l :
  exists prefix,
    rejoin sep (init ++ [l]) = prefix ++ l /\ closed_by sep prefix = true.
Proof.
  induction init as [|f init IH].
  - exists EmptyString. split; reflexivity.
  - destruct IH as (prefix & Hj & Hc).
    exists (f ++ String sep prefix). split.
    + cbn [app rejoin]. destruct (init ++ [l])%list eqn:E.
      * destruct init; discriminate E.
      * rewrite Hj. now rewrite append_assoc.
    + rewrite closed_by_app. destruct prefix; [cbn; apply Ascii.eqb_refl|].
      exact Hc.
Qed.

Lemma last_segment sep s :
  exists prefix l,
    Py.last_item (Py.split sep s) = Some l /\
    s = prefix ++ l /\ closed_by sep prefix = true /\ free_of sep l = true.
Proof.
  pose proof (split_fields_free sep s) as Hfree.
  pose proof (rejoin_split sep s) as Hjoin.
  destruct (exists_last (split_not_nil sep s)) as (init & l & Hsplit).
  rewrite Hsplit in *.
  destruct (rejoin_last sep init l) as (prefix & Hj & Hc).
  exists prefix, l. repeat split.
  - unfold Py.last_item. now rewrite rev_unit.
  - now rewrite <- Hjoin, Hj.
  - exact Hc.
  - apply Forall_app in Hfree. destruct Hfree as [_ Hl].
    now inversion Hl.
Qed.

(** X14.  When the list request answers without stderr and the first
    evaluation has the name [name], [_ListEvaluations] returns the part of
    the name after its last slash: the name is a prefix, empty or ending in
    a slash, followed by the id, and the id holds no slash.  The lookup of
    the last segment never fails.  This holds in both helpers. *)
Theorem ListEvaluations_returns_last_segment :
  forall env w (agent : AgentHelper.t) (integration : IntegrationHelper.t)
         endpoint st out name,
    json_first_evaluation_name env out = Ok name ->
    exists prefix id,
      name = prefix ++ id /\
      closed_by "/" prefix = true /\ free_of "/" id = true /\
      (remote env (calls (trace w)) PowerShell (AgentHelper._vm agent)
         (list_evaluations_cmd endpoint) = Returned st out EmptyString ->
       fst (AgentHelper._ListEvaluations agent endpoint env w) = Ok id) /\
      (remote env (calls (trace w)) PowerShell
         (IntegrationHelper._vm_win_local integration)
         (list_evaluations_cmd endpoint) = Returned st out EmptyString ->
       fst (IntegrationHelper._ListEvaluations integration endpoint env w)
       = Ok id).
Proof.
  intros env w agent integration endpoint st out name Hname.
  destruct (last_segment "/" name) as (prefix & id & Hlast & Hn & Hc & Hf).
  exists prefix, id. repeat split; try assumption.
  - intros Hcall. unfold AgentHelper._ListEvaluations. cbv zeta.
    run_call Hcall. cbn [Py.truthy].
    now rewrite run_ask, Hname, run_lift_ok, Hlast.
  - intros Hcall. unfold IntegrationHelper._ListEvaluations. cbv zeta.
    run_call Hcall. cbn [Py.truthy].
    now rewrite run_ask, Hname, run_lift_ok, Hlast.
Qed.

Lemma ListEvaluations_returns_last_segment_example :
  exists prefix id,
    "projects/p/locations/us-central1/evaluations/eval-7" = prefix ++ id /\
    closed_by "/" prefix = true /\ free_of "/" id = true /\
    fst (AgentHelper._ListEvaluations windows_agent "host" evaluation_env
           empty_world) = Ok id.
Proof.
  destruct (@ListEvaluations_returns_last_segment evaluation_env empty_world
              windows_agent integration_helper "host" 0%Z evaluations_json
              "projects/p/locations/us-central1/evaluations/eval-7" eq_refl)
    as (prefix & id & Hn & Hc & Hf & Ha & _).
  exists prefix, id. repeat split; try assumption. exact (Ha eq_refl).
Defined.

(** ** More on the load-test aggregator *)










(** ** Installing the agent *)

Ltac quiet_call Hquiet :=
  cbv beta; repeat rewrite run_assoc; rewrite ?run_on_vm;
  match goal with
  | |- context [bind (remote_call ?ch ?v ?c) _ ?env ?w] =>
      let st := fresh "st" in
      let out := fresh "out" in
      let H := fresh "Hcall" in
      destruct (Hquiet (calls (trace w)) ch v c) as (st & out & H);
      erewrite run_call_returned by exact H;
      cbn [Py.truthy]
  end.

(** X18.  On a Windows host whose commands all succeed, [InstallAgent] on the
    google3 path first writes the configuration [local.json], then runs the
    installer, then checks that the service exists; for any other repo
    version it installs the package and checks the service. *)
Theorem InstallAgent_command_order :
  forall env w (h : AgentHelper.t) config_json,
    AgentHelper._windows h = true ->
    always_quiet env ->
    resource_file env
      (AGENT_FOR_SQL_SERVER_AGENT_DIR ++ "configurations/" ++ "local.json")
    = Ok config_json ->
    let run := AgentHelper.InstallAgent h env w in
    fst run = Ok tt /\
    commands (new_events w (snd run))
    = if String.eqb (AgentHelper._repo_version h) "google3"
      then ["Set-Content -Path"
            ++ " " ++ SQL_SERVER_AGENT_CONFIG_PATH_WINDOWS ++ " -Value"
            ++ " @" ++ Py.dq ++ Py.nl ++ config_json ++ Py.nl ++ Py.dq
            ++ "@ -Encoding ascii";
            "& " ++ SQL_SERVER_AGENT_EXE_PATH ++ " --action=install";
            "Get-Service -Name" ++ " " ++ SQL_SERVER_AGENT_NAME]
      else ["googet -noconfirm install" ++ " " ++ SQL_SERVER_AGENT_NAME;
            "Get-Service -Name" ++ " " ++ SQL_SERVER_AGENT_NAME].
Proof.
  intros env w h config_json Hwin Hquiet Hfile run. subst run.
  unfold AgentHelper.InstallAgent, AgentHelper._VerifyAgentInstallation.
  rewrite Hwin. destruct (String.eqb (AgentHelper._repo_version h) "google3").
  - unfold AgentHelper.UpdateConfiguration, bct_test_utils.ReadFileContent.
    rewrite Hwin. cbv zeta.
    rewrite !run_assoc, run_ask, Hfile, run_lift_ok. cbv beta.
    quiet_call Hquiet. rewrite !run_ret. cbv beta.
    quiet_call Hquiet. quiet_call Hquiet.
    cbn [fst snd ret]. split; [reflexivity|].
    now rewrite new_events_record3.
  - cbv zeta. rewrite run_ret. cbv beta.
    quiet_call Hquiet. quiet_call Hquiet.
    cbn [fst snd ret]. split; [reflexivity|].
    now rewrite new_events_record2.
Qed.

Lemma InstallAgent_command_order_example :
  let run := AgentHelper.InstallAgent windows_agent plain_env empty_world in
  fst run = Ok tt /\
  commands (new_events empty_world (snd run))
  = ["googet -noconfirm install google-cloud-sql-server-agent";
     "Get-Service -Name google-cloud-sql-server-agent"].
Proof.
  intros run.
  apply (@InstallAgent_command_order plain_env empty_world windows_agent
           "echo ok" eq_refl).
  - intros n ch v cmd. exists 0%Z, EmptyString.
    cbn [remote plain_env scripted]. now destruct n.
  - reflexivity.
Defined.

(** ** Uploading the raw data *)

Lemma append_inj_l (p a b : string) : p ++ a = p ++ b -> a = b.
Proof.
  induction p as [|c p IH]; cbn [append]; intros H; [exact H|].
  injection H as H. now apply IH.
Qed.

(** X19.  The raw data of the two runs are kept apart: the upload of the
    agent-installed run and the upload of the baseline run each send one
    gsutil command, and the two commands differ (they name different
    objects of the bucket), whatever the helper's paths are. *)
Theorem uploads_name_different_objects :
  forall env w (h : LoadtestHelper.t),
    exists with_agent baseline,
      commands (new_events w
                  (snd (LoadtestHelper.UploadLoadTestResultToBucket h true
                          env w))) = [with_agent] /\
      commands (new_events w
                  (snd (LoadtestHelper.UploadLoadTestResultToBucket h false
                          env w))) = [baseline] /\
      with_agent <> baseline.
Proof.
  intros env w h.
  exists ("gsutil cp" ++ " " ++ LoadtestHelper._test_result_path h ++ " "
          ++ LoadtestHelper._raw_data_bucket_path_prefix h
          ++ LoadtestHelper._raw_data_file_name_prefix h
          ++ "-agent_installed.txt"),
         ("gsutil cp" ++ " " ++ LoadtestHelper._test_result_path h ++ " "
          ++ LoadtestHelper._raw_data_bucket_path_prefix h
          ++ LoadtestHelper._raw_data_file_name_prefix h ++ ".txt").
  repeat split.
  - unfold LoadtestHelper.UploadLoadTestResultToBucket,
      windows_test_utils.RunCommandOrRaiseOnFailure, bind, remote_call.
    cbv zeta.
    destruct (remote env _ _ _ _) as [st out err | e]; cbn [snd ret];
      now rewrite new_events_record1.
  - unfold LoadtestHelper.UploadLoadTestResultToBucket,
      windows_test_utils.RunCommandOrRaiseOnFailure, bind, remote_call.
    cbv zeta.
    destruct (remote env _ _ _ _) as [st out err | e]; cbn [snd ret];
      now rewrite new_events_record1.
  - intros H. repeat apply append_inj_l in H. discriminate H.
Qed.

(** ** The baseline test method *)

Lemma call_cases {B} (k : Z * string * string -> M B) env w ch v cmd :
  (exists e,
      bind (remote_call ch v cmd) k env w
      = (Raise e, record_event (Ran ch v cmd (Failed e)) w)) \/
  (exists st out err,
      bind (remote_call ch v cmd) k env w
      = k (st, out, err) env
          (record_event (Ran ch v cmd (Returned st out err)) w)).
Proof.
  destruct (remote env (calls (trace w)) ch v cmd) as [st out err|e] eqn:H.
  - right. exists st, out, err. now apply run_call_returned.
  - left. exists e. now apply run_call_failed.
Qed.

Lemma new_events_none w a :
  new_events w {| trace := trace w; attrs := a |} = [].
Proof.
  unfold new_events. cbn [trace]. apply skipn_all.
Qed.

Lemma new_events_refl w : new_events w w = [].
Proof. unfold new_events. apply skipn_all. Qed.

Ltac sent_so_far :=
  cbn [snd ret raise];
  first
    [ rewrite new_events_refl
    | rewrite new_events_none
    | erewrite new_events_exact
        by (cbn [trace record_event]; rewrite <- ?app_assoc; reflexivity) ];
  cbn [app commands command_of].

Ltac not_the_delete :=
  sent_so_far;
  let H := fresh "H" in
  intros H; exfalso; cbn [In] in H;
  unfold LoadtestHelper.delete_result_cmd, LoadtestHelper.save_file_cmd,
    LoadtestHelper.sql_cmd, LoadtestHelper.get_result_cmd in H;
  cbn [append] in H;
  repeat (destruct H as [H|H]; [discriminate H|]); exact H.

Ltac flat := cbv beta iota; repeat rewrite run_assoc.

(** One remote call: the framework raises (first goal) or the call returns
    with empty or with non-empty stderr (second and third goal). *)
Ltac any_call :=
  flat;
  match goal with
  | |- context [bind (remote_call ?ch ?v ?c) ?k ?env ?w] =>
      let e := fresh "e" in
      let st := fresh "st" in
      let out := fresh "out" in
      let err := fresh "err" in
      let H := fresh "Hcall" in
      destruct (@call_cases _ k env w ch v c)
        as [(e & H) | (st & out & [|? err] & H)];
      rewrite H; clear H; cbv beta iota; cbn [Py.truthy orb]
  end.

(** A call before the deletion whose stderr is checked. *)
Ltac checked_call :=
  any_call; [not_the_delete | | rewrite run_raise; not_the_delete].

(** X20.  [testLoadTest] removes the result file only at the very end: in
    every run in which the Remove-Item command is sent, both scripts could be
    read and the commands sent are, in this order, the saving of
    [run_loadtest.sql], the background sqlcmd job, the saving of
    [virtualusers.tcl], the hammerdbcli run, the Stop-Job, the upload to the
    bucket, the reading of the log and the deletion, and nothing else. *)
Theorem testLoadTest_deletes_last :
  forall env w (h : LoadtestHelper.t),
    let sent := commands (new_events w (snd (LoadTest.testLoadTest h env w))) in
    In (LoadtestHelper.delete_result_cmd h) sent ->
    exists sql_script users_script,
      resource_file env
        (AGENT_FOR_SQL_SERVER_AGENT_DIR ++ "load_test/" ++ "run_loadtest.sql")
      = Ok sql_script /\
      resource_file env
        (AGENT_FOR_SQL_SERVER_AGENT_DIR ++ "load_test/" ++ "virtualusers.tcl")
      = Ok users_script /\
      sent
      = [LoadtestHelper.save_file_cmd h "run_loadtest.sql" sql_script;
         LoadtestHelper.sql_cmd h env "run_loadtest.sql"
           (secret_value env (LoadtestHelper._project_number h)
              (LoadtestHelper._secret_name h)) true;
         LoadtestHelper.save_file_cmd h "virtualusers.tcl" users_script;
         "cd '" ++ LoadtestHelper._hammerdb_path h
         ++ "' ; .\hammerdbcli tcl auto" ++ " ." ++ Py.bs
         ++ "virtualusers.tcl";
         "Stop-Job -Name " ++ LoadtestHelper._background_job_name h;
         "gsutil cp" ++ " " ++ LoadtestHelper._test_result_path h ++ " "
         ++ LoadtestHelper._raw_data_bucket_path_prefix h
         ++ LoadtestHelper._raw_data_file_name_prefix h ++ ".txt";
         LoadtestHelper.get_result_cmd h;
         LoadtestHelper.delete_result_cmd h].
Proof.
  intros env w h sent. subst sent.
  unfold LoadTest.testLoadTest, LoadtestHelper.RunSqlScripts,
    LoadtestHelper.RunVirtualUsers, LoadtestHelper.StopBackgroundJob,
    LoadtestHelper.UploadLoadTestResultToBucket,
    LoadtestHelper.ProcessLoadTestResult, LoadtestHelper._RunTclScripts,
    LoadtestHelper._SaveFileToHammerDBFolder,
    LoadtestHelper._GetLoadTestResult, LoadtestHelper._DeleteTestResult,
    bct_test_utils.ReadFileContent, bct_test_utils.GetSecretValue,
    windows_test_utils.RunCommandOrRaiseOnFailure.
  cbv zeta. repeat rewrite run_assoc. rewrite run_ask.
  destruct (resource_file env
              (AGENT_FOR_SQL_SERVER_AGENT_DIR ++ "load_test/"
               ++ "run_loadtest.sql")) as [sql_script|e0] eqn:Hsql;
    [rewrite run_lift_ok | rewrite run_lift_raise; not_the_delete].
  (* the script is saved *)
  checked_call.
  rewrite run_ret. flat. rewrite run_ask, run_ret. flat. rewrite run_ask.
  (* the background job is started *)
  checked_call.
  rewrite run_ret. flat. rewrite run_ask.
  destruct (resource_file env
              (AGENT_FOR_SQL_SERVER_AGENT_DIR ++ "load_test/"
               ++ "virtualusers.tcl")) as [users_script|e0] eqn:Husers;
    [rewrite run_lift_ok | rewrite run_lift_raise; not_the_delete].
  (* the virtual users run *)
  checked_call. rewrite run_ret.
  checked_call.
  match goal with
  | |- context [Py.contains "error" ?o] =>
      destruct (Py.contains "error" o);
        [rewrite run_raise; not_the_delete|]
  end.
  rewrite run_ret.
  (* the job is stopped *)
  checked_call. rewrite run_ret.
  (* the upload, whose stderr is not looked at; then the log is read, the
     means are computed and recorded, and the file is deleted *)
  any_call; [not_the_delete | | ];
    ( rewrite run_ret; checked_call; rewrite run_ret; flat;
      match goal with
      | |- context [bind (lift (collect ?r ?s0)) _ _ _] =>
          destruct (collect r s0) as [s|?e];
            [rewrite run_lift_ok; cbv beta
            | rewrite run_lift_raise; not_the_delete]
      end;
      repeat match goal with
             | |- context [bind (lift (round_mean ?xs)) _ _ _] =>
                 destruct (round_mean xs) as [?m|?e];
                   [rewrite run_lift_ok; cbv beta
                   | rewrite run_lift_raise; not_the_delete]
             end;
      rewrite run_get_attrs, run_set_attrs;
      any_call; cbn [raise]; sent_so_far; intros _;
      exists sql_script, users_script; repeat split; reflexivity ).
Qed.

Lemma testLoadTest_deletes_last_example :
  let env := scripted [says EmptyString; says EmptyString; says EmptyString;
                       says "Vuser 1:FINISHED SUCCESS"; says EmptyString;
                       says EmptyString; says two_row_log]
               (one_file "vurun") "pw" in
  let sent := commands (new_events empty_world
                          (snd (LoadTest.testLoadTest loadtest_helper env
                                  empty_world))) in
  exists sql_script users_script,
    resource_file env
      (AGENT_FOR_SQL_SERVER_AGENT_DIR ++ "load_test/" ++ "run_loadtest.sql")
    = Ok sql_script /\
    resource_file env
      (AGENT_FOR_SQL_SERVER_AGENT_DIR ++ "load_test/" ++ "virtualusers.tcl")
    = Ok users_script /\
    sent
    = [LoadtestHelper.save_file_cmd loadtest_helper "run_loadtest.sql"
         sql_script;
       LoadtestHelper.sql_cmd loadtest_helper env "run_loadtest.sql"
         (secret_value env (LoadtestHelper._project_number loadtest_helper)
            (LoadtestHelper._secret_name loadtest_helper)) true;
       LoadtestHelper.save_file_cmd loadtest_helper "virtualusers.tcl"
         users_script;
       "cd '" ++ LoadtestHelper._hammerdb_path loadtest_helper
       ++ "' ; .\hammerdbcli tcl auto" ++ " ." ++ Py.bs
       ++ "virtualusers.tcl";
       "Stop-Job -Name " ++ LoadtestHelper._background_job_name loadtest_helper;
       "gsutil cp" ++ " " ++ LoadtestHelper._test_result_path loadtest_helper
       ++ " " ++ LoadtestHelper._raw_data_bucket_path_prefix loadtest_helper
       ++ LoadtestHelper._raw_data_file_name_prefix loadtest_helper ++ ".txt";
       LoadtestHelper.get_result_cmd loadtest_helper;
       LoadtestHelper.delete_result_cmd loadtest_helper].
Proof.
  intros env sent.
  apply (@testLoadTest_deletes_last env empty_world loadtest_helper).
  vm_compute. do 7 right. left. reflexivity.
Defined.
